(** * Faster R-CNN: the RPN orchestrator and the full model

    A shallow embedding of [model/rpn/rpn.py] ([Flatten], [RPN]), of
    [faster_rcnn/model.py] ([FasterRCNN]) and of the training loop of
    [faster_rcnn/train.py] ([main]).  Tensors of floats are modelled
    over the real numbers: a tensor is the nested list of its entries (or,
    for [Flatten], a shape with its row-major storage), a Python exception is
    a value of [PyErr], and the sub-layers whose source is not part of the
    two files (convolutions, [Proposal], [AnchorRefine], [ProposalRefine],
    the backbone, the pooling and the classification head) are fields of a
    record of layers that every statement quantifies over. *)

From Stdlib Require Import Reals Lra Lia List ZArith Bool Arith Permutation.
Import ListNotations.

Open Scope R_scope.

(** ** Python results and exceptions *)

Module Py.

Inductive PyErr : Type :=
| ValueError_too_many_values (expected : nat)
| ValueError_not_enough_values (expected got : nat)
| ValueError_shape
| IndexError
| TypeError
| ZeroDivisionError
| RuntimeError.

Inductive Result (X : Type) : Type :=
| Ok (x : X)
| Raise (e : PyErr).

Arguments Ok {X} x.
Arguments Raise {X} e.

Definition rbind {X Y : Type} (r : Result X) (k : X -> Result Y) : Result Y :=
  match r with
  | Ok x => k x
  | Raise e => Raise e
  end.

Definition is_ok {X : Type} (r : Result X) : bool :=
  match r with
  | Ok _ => true
  | Raise _ => false
  end.

End Py.

Import Py.

Notation "x <- m ;; k" := (rbind m (fun x => k))
  (at level 61, m at next level, right associativity).

(** ** Tensors as nested lists, and the torch operations the two files use *)

Module Torch.

Definition Tensor1 : Type := list R.
Definition Tensor2 : Type := list Tensor1.
Definition Tensor3 : Type := list Tensor2.
Definition Tensor4 : Type := list Tensor3.
(** Integer-valued tensors (labels, class indices). *)
Definition IntTensor1 : Type := list Z.
Definition IntTensor2 : Type := list IntTensor1.

Definition Rsum (xs : list R) : R := fold_right Rplus 0 xs.

(** [t[n]] on the first dimension; an index past the end raises. *)
Definition get {X : Type} (n : nat) (t : list X) : Result X :=
  match nth_error t n with
  | Some x => Ok x
  | None => Raise IndexError
  end.

Fixpoint mapM {X Y : Type} (f : X -> Result Y) (xs : list X) : Result (list Y) :=
  match xs with
  | [] => Ok []
  | x :: rest =>
      y <- f x ;;
      ys <- mapM f rest ;;
      Ok (y :: ys)
  end.

(** One row picked by [torch.index_select]: an index past the end raises
    RuntimeError ("index out of range in self"). *)
Definition index_row {X : Type} (i : nat) (t_n : list X) : Result X :=
  match nth_error t_n i with
  | Some x => Ok x
  | None => Raise RuntimeError
  end.

(** [torch.index_select(t, dim=1, index=idx)] on an N x A x d tensor with
    N >= 1.  (torch compares the indices with A also when N = 0; the nested
    list of a batch of no image has no A to compare with, and such a batch
    does not reach line 131: the two heads end in [Flatten], which raises on
    it.) *)
Definition index_select_dim1 (t : Tensor3) (idx : list nat) : Result Tensor3 :=
  mapM (fun t_n => mapM (fun i => index_row i t_n) idx) t.

(** Selection of the entries of [xs] by a boolean mask, kept in order. *)
Fixpoint select {X : Type} (mask : list bool) (xs : list X) : list X :=
  match mask, xs with
  | b :: mask', x :: xs' => if b then x :: select mask' xs' else select mask' xs'
  | _, _ => []
  end.

(** [t[mask]] (after the first index has been taken): the mask must be as
    long as the dimension it indexes. *)
Definition masked {X : Type} (mask : list bool) (xs : list X) : Result (list X) :=
  if Nat.eqb (length mask) (length xs) then Ok (select mask xs) else Raise IndexError.

(** The negative log-likelihood of class [t] under the softmax of the score
    row [x]: [log (sum_j exp x_j) - x_t].  A class index outside the row
    raises. *)
Definition nll (x : Tensor1) (t : Z) : Result R :=
  if (0 <=? t)%Z && (t <? Z.of_nat (length x))%Z
  then Ok (ln (Rsum (map exp x)) - nth (Z.to_nat t) x 0)
  else Raise IndexError.

Fixpoint nll_rows (input : Tensor2) (target : IntTensor1) : Result (list R) :=
  match input, target with
  | [], [] => Ok []
  | x :: input', t :: target' =>
      l <- nll x t ;;
      ls <- nll_rows input' target' ;;
      Ok (l :: ls)
  | _, _ => Raise ValueError_shape
  end.

(** [F.cross_entropy(input, target)] for a Y x C input and Y class indices,
    with the default reduction: the mean over the Y rows.  The batch sizes
    are compared first.  (On Y = 0 torch yields nan, which is no real
    number: the model then has 0 / 0, and the statements about the value of
    a loss are made for Y >= 1.  The default [ignore_index] of -100 is not
    modelled.) *)
Definition cross_entropy (input : Tensor2) (target : IntTensor1) : Result R :=
  if Nat.eqb (length input) (length target) then
    ls <- nll_rows input target ;;
    Ok (Rsum ls / INR (length ls))
  else Raise ValueError_shape.

(** One entry of the smooth-L1 loss (beta = 1) at the difference [d]. *)
Definition smooth_l1 (d : R) : R :=
  if Rlt_dec (Rabs d) 1 then d * d / 2 else Rabs d - / 2.

Fixpoint smooth_l1_terms (input target : list R) : list R :=
  match input, target with
  | x :: input', y :: target' => smooth_l1 (x - y) :: smooth_l1_terms input' target'
  | _, _ => []
  end.

Definition shape2 (t : Tensor2) : list nat := map (@length R) t.
Definition shape3 (t : Tensor3) : list (list nat) := map shape2 t.

Definition flat2 (t : Tensor2) : list R := concat t.
Definition flat3 (t : Tensor3) : list R := concat (map flat2 t).

(** [F.smooth_l1_loss(input, target)] with the default reduction: the mean
    over all entries.  Both tensors must have one shape (torch would try to
    broadcast two different shapes; that is not modelled, it raises here).
    (On tensors without an entry torch yields nan, which is no real number:
    the model then has 0 / 0, and the statements about the value of a loss
    are made for tensors with an entry.) *)
Definition smooth_l1_loss2 (input target : Tensor2) : Result R :=
  if list_eq_dec Nat.eq_dec (shape2 input) (shape2 target)
  then Ok (Rsum (smooth_l1_terms (flat2 input) (flat2 target))
           / INR (length (flat2 input)))
  else Raise RuntimeError.

Definition smooth_l1_loss3 (input target : Tensor3) : Result R :=
  if list_eq_dec (list_eq_dec Nat.eq_dec) (shape3 input) (shape3 target)
  then Ok (Rsum (smooth_l1_terms (flat3 input) (flat3 target))
           / INR (length (flat3 input)))
  else Raise RuntimeError.

End Torch.

Import Torch.

(** ** [Flatten]: rpn.py, lines 20-30

    [Flatten] works on the storage of its input, so here a tensor is its
    shape together with its entries in row-major (contiguous) order. *)

Module Flatten.

Record Tensor : Type := mkTensor { shape : list nat; data : list R }.

Definition numel (x : Tensor) : nat := fold_right Nat.mul 1%nat (shape x).

(** [x.size(0)] *)
Definition size0 (x : Tensor) : nat := nth 0 (shape x) 0%nat.

(** The list [f 0 ++ f 1 ++ ... ++ f (n-1)]: one loop level of a row-major
    traversal. *)
Definition tab {X : Type} (n : nat) (f : nat -> list X) : list X :=
  flat_map f (seq 0 n).

(** The row-major offset of a multi-index, [None] when an index is out of
    its dimension or the number of indices is not the rank. *)
Fixpoint offset (shp idx : list nat) (acc : nat) : option nat :=
  match shp, idx with
  | [], [] => Some acc
  | s :: shp', i :: idx' =>
      if Nat.ltb i s then offset shp' idx' (acc * s + i)%nat else None
  | _, _ => None
  end.

(** [x[i0, i1, ...]] *)
Definition entry (x : Tensor) (idx : list nat) : option R :=
  match offset (shape x) idx 0%nat with
  | Some o => nth_error (data x) o
  | None => None
  end.

(** [x.permute(0,2,3,1).contiguous()]: the N x C x H x W tensor laid out
    again as N x H x W x C. *)
Definition permute_0231_contiguous (x : Tensor) : Result Tensor :=
  match shape x with
  | [N; C; H; W] =>
      Ok {| shape := [N; H; W; C];
            data :=
              tab N (fun n => tab H (fun h => tab W (fun w =>
                map (fun c => nth (((n * C + c) * H + h) * W + w)%nat (data x) 0)
                    (seq 0 C)))) |}
  | _ => Raise RuntimeError
  end.

(** [x.view(n0, -1, d)]: the storage is kept, the middle dimension is
    inferred.  torch refuses when the known dimensions multiply to zero (the
    inferred one is then ambiguous) or do not divide the number of entries. *)
Definition view_infer_middle (x : Tensor) (n0 d : nat) : Result Tensor :=
  let m := (n0 * d)%nat in
  if Nat.eqb m 0 || negb (Nat.eqb (numel x mod m) 0) then Raise RuntimeError
  else Ok {| shape := [n0; (numel x / m)%nat; d]; data := data x |}.

(** [Flatten(last_dim).forward(x)] *)
Definition forward (last_dim : nat) (x : Tensor) : Result Tensor :=
  p <- permute_0231_contiguous x ;;
  view_infer_middle p (size0 x) last_dim.

End Flatten.

(** ** The configuration and the classes rpn.py imports

    [config.py] and the four RPN layers are not part of the sources; the
    configuration is a record of the values the spec lists, and the imported
    constructors are a record [Imports] that [RPN.init] is given. *)

Module Config.

(** Modelled from the spec: [config.py] is absent.  The fields in capitals
    are the ones rpn.py reads; the four thresholds are those of section 6
    ("anchor positive/negative IoU thresholds", "RoI foreground/background
    IoU thresholds"), which the sub-layers read. *)
Record Config : Type := mkConfig {
  IMG_SIZE : nat * nat;
  RPN_ANCHOR_STRIDE : nat;
  RPN_ANCHOR_SCALES : list R;
  RPN_ANCHOR_RATIOS : list R;
  RES_OUT_CHANNEL : nat;
  CONV_OUT_CHANNEL : nat;
  anchor_positive_threshold : R;
  anchor_negative_threshold : R;
  roi_fg_threshold : R;
  roi_bg_threshold : R
}.

End Config.

Import Config.

(** ** [RPN]: rpn.py, lines 32-166 *)

Module RPN.

(** The sub-layers [forward] calls, as they appear in its trace. *)
Inductive Layer : Type :=
| L_conv
| L_conv_bbox_score
| L_conv_bbox_coeff
| L_proposal
| L_anchor_refine
| L_proposal_refine.

(** The object [self]: the anchor tensor, the mode flag of [nn.Module], and
    (a ghost field) the sub-layers invoked so far, oldest first. *)
Record Self : Type := mkSelf {
  anchors : Tensor2;
  training : bool;
  invoked : list Layer
}.

(** What the sub-layers compute during one call of [forward].  Weights and
    the sampling generator change between calls, so each call comes with its
    own record.  [conv_bbox_score] and [conv_bbox_coeff] are the two
    [nn.Sequential] heads as a whole (a 1x1 convolution, then [Flatten]).
    A layer that is handed [self.anchors] receives the tensor object itself:
    it returns, beside its result, the tensor as it leaves it. *)
Record Layers : Type := mkLayers {
  conv : Tensor4 -> Tensor4;
  conv_bbox_score : Tensor4 -> Tensor3;
  conv_bbox_coeff : Tensor4 -> Tensor3;
  proposal : Tensor2 -> Tensor3 -> Tensor3 -> Tensor2 * (Tensor3 * Tensor3);
  anchor_refine : Tensor2 -> Tensor3 -> Tensor2 * (IntTensor2 * Tensor3 * list nat);
  proposal_refine : Tensor3 -> Tensor3 -> IntTensor2 -> Tensor3 * IntTensor2 * Tensor3
}.

(** The constructors [__init__] calls.  [Proposal()], [AnchorRefine()] and
    [ProposalRefine()] take no argument; what they can read is the global
    configuration. *)
Record Imports : Type := mkImports {
  AnchorGeneration_generate_all :
    nat * nat -> nat -> list R -> list R -> Result Tensor2;
  Conv2d : nat -> nat -> Result unit;
  Proposal : Config -> Result unit;
  AnchorRefine : Config -> Result unit;
  ProposalRefine : Config -> Result unit
}.

(** [RPN.__init__] (lines 35-93).  A fresh [nn.Module] is in training mode. *)
Definition init (I : Imports) (cfg : Config) : Result Self :=
  a <- AnchorGeneration_generate_all I (IMG_SIZE cfg) (RPN_ANCHOR_STRIDE cfg)
         (RPN_ANCHOR_SCALES cfg) (RPN_ANCHOR_RATIOS cfg) ;;
  _ <- Conv2d I (RES_OUT_CHANNEL cfg) (CONV_OUT_CHANNEL cfg) ;;
  let anchor_types :=
    (length (RPN_ANCHOR_RATIOS cfg) * length (RPN_ANCHOR_SCALES cfg))%nat in
  _ <- Conv2d I (CONV_OUT_CHANNEL cfg) (anchor_types * 2)%nat ;;
  _ <- Conv2d I (CONV_OUT_CHANNEL cfg) (anchor_types * 4)%nat ;;
  _ <- Proposal I cfg ;;
  _ <- AnchorRefine I cfg ;;
  _ <- ProposalRefine I cfg ;;
  Ok {| anchors := a; training := true; invoked := [] |}.

(** Computations of [forward]: they read and update [self] and may raise. *)
Definition M (X : Type) : Type := Self -> Result X * Self.

Definition ret {X : Type} (x : X) : M X := fun s => (Ok x, s).

Definition bind {X Y : Type} (m : M X) (k : X -> M Y) : M Y :=
  fun s =>
    match m s with
    | (Ok x, s') => k x s'
    | (Raise e, s') => (Raise e, s')
    end.

Definition lift {X : Type} (r : Result X) : M X := fun s => (r, s).

Definition get_training : M bool := fun s => (Ok (training s), s).

Definition log (l : Layer) (s : Self) : Self :=
  {| anchors := anchors s; training := training s; invoked := invoked s ++ [l] |}.

(** A call of sub-layer [l] that is not given the anchors. *)
Definition invoke {X : Type} (l : Layer) (x : X) : M X := fun s => (Ok x, log l s).

(** A call of sub-layer [l] on [self.anchors]: what the layer leaves in the
    tensor is what [self.anchors] holds afterwards. *)
Definition invoke_on_anchors {X : Type} (l : Layer) (f : Tensor2 -> Tensor2 * X) : M X :=
  fun s =>
    let (a', x) := f (anchors s) in
    (Ok x, {| anchors := a'; training := training s; invoked := invoked s ++ [l] |}).

Notation "x <~ m ;; k" := (bind m (fun x => k))
  (at level 61, m at next level, right associativity).
Notation "' p <~ m ;; k" := (bind m (fun p => k))
  (at level 61, p pattern, m at next level, right associativity).

(** Lines 138-144: the classification loss of image [n]. *)
Definition image_class_loss (bbox_score_anchors : Tensor3) (labels_n : IntTensor1)
    (n : nat) : Result R :=
  let fg_and_bg := map (fun l => (0 <=? l)%Z) labels_n in
  score_n <- get n bbox_score_anchors ;;
  pred_scores <- masked fg_and_bg score_n ;;
  labels_sel <- masked fg_and_bg labels_n ;;
  let true_scores := map (fun l => (1 - l)%Z) labels_sel in
  cross_entropy pred_scores true_scores.

(** Lines 148-151: the regression loss of image [n]. *)
Definition image_bbox_loss (bbox_coeff_anchors target_coeffs : Tensor3)
    (labels_n : IntTensor1) (n : nat) : Result R :=
  let fg := map (fun l => (l =? 1)%Z) labels_n in
  coeff_n <- get n bbox_coeff_anchors ;;
  pred_coeffs <- masked fg coeff_n ;;
  target_n <- get n target_coeffs ;;
  true_coeffs <- masked fg target_n ;;
  smooth_l1_loss2 pred_coeffs true_coeffs.

(** Lines 135-151: the loop over [range(labels.size(0))]; [labels] is what
    is left of the rows, [n] the index of the first of them, [acc] the two
    running sums. *)
Fixpoint loss_loop (labels : IntTensor2) (n : nat)
    (bbox_score_anchors bbox_coeff_anchors target_coeffs : Tensor3)
    (acc : R * R) : Result (R * R) :=
  match labels with
  | [] => Ok acc
  | labels_n :: rest =>
      c <- image_class_loss bbox_score_anchors labels_n n ;;
      b <- image_bbox_loss bbox_coeff_anchors target_coeffs labels_n n ;;
      loss_loop rest (S n) bbox_score_anchors bbox_coeff_anchors target_coeffs
        (fst acc + c, snd acc + b)
  end.

(** Lines 153-154: [loss /= gt_boxes.size(0)].  When the loop did not run the
    sum is still the Python int 0, and dividing it by 0 raises; a tensor
    divided by 0 does not. *)
Definition average (labels : IntTensor2) (gt_boxes : Tensor3) (sum : R) : Result R :=
  match labels, gt_boxes with
  | [], [] => Raise ZeroDivisionError
  | _, _ => Ok (sum / INR (length gt_boxes))
  end.

(** Lines 125-155: the training branch, after [anchor_refine] has run. *)
Definition training_losses (bbox_score bbox_coeff : Tensor3)
    (labels : IntTensor2) (target_coeffs : Tensor3) (anchors_idx : list nat)
    (gt_boxes : Tensor3) : Result (R * R * R) :=
  bbox_score_anchors <- index_select_dim1 bbox_score anchors_idx ;;
  bbox_coeff_anchors <- index_select_dim1 bbox_coeff anchors_idx ;;
  sums <- loss_loop labels 0 bbox_score_anchors bbox_coeff_anchors target_coeffs (0, 0) ;;
  rpn_class_loss <- average labels gt_boxes (fst sums) ;;
  rpn_bbox_loss <- average labels gt_boxes (snd sums) ;;
  Ok (rpn_class_loss, rpn_bbox_loss, rpn_class_loss + rpn_bbox_loss).

(** The six values of the [return] statement (line 166), in its order. *)
Record Ret : Type := mkRet {
  rois : Tensor3;
  rois_labels : option IntTensor2;
  rois_coeffs : option Tensor3;
  rpn_class_loss : R;
  rpn_bbox_loss : R;
  rpn_loss : R
}.

(** [RPN.forward] (lines 95-166). *)
Definition forward (L : Layers) (feature_map : Tensor4) (gt_boxes : Tensor3)
    (gt_classes : IntTensor2) : M Ret :=
  out <~ invoke L_conv (conv L feature_map) ;;
  bbox_score <~ invoke L_conv_bbox_score (conv_bbox_score L out) ;;
  bbox_coeff <~ invoke L_conv_bbox_coeff (conv_bbox_coeff L out) ;;
  '(roi_scores, rois0) <~
     invoke_on_anchors L_proposal (fun a => proposal L a bbox_score bbox_coeff) ;;
  is_training <~ get_training ;;
  '(class_loss, bbox_loss, loss) <~
     (if is_training then
        '(labels, target_coeffs, anchors_idx) <~
           invoke_on_anchors L_anchor_refine (fun a => anchor_refine L a gt_boxes) ;;
        lift (training_losses bbox_score bbox_coeff labels target_coeffs
                anchors_idx gt_boxes)
      else ret (0, 0, 0)) ;;
  is_training <~ get_training ;;
  '(rois1, labels1, coeffs1) <~
     (if is_training then
        '(r, l, c) <~ invoke L_proposal_refine (proposal_refine L rois0 gt_boxes gt_classes) ;;
        ret (r, Some l, Some c)
      else ret (rois0, None, None)) ;;
  ret {| rois := rois1; rois_labels := labels1; rois_coeffs := coeffs1;
         rpn_class_loss := class_loss; rpn_bbox_loss := bbox_loss; rpn_loss := loss |}.

(** [model.train()], [model.eval()] and a call of [forward] are what a
    caller can do to an RPN between construction and disposal. *)
Inductive Op : Type :=
| op_train
| op_eval
| op_forward (L : Layers) (feature_map : Tensor4) (gt_boxes : Tensor3)
    (gt_classes : IntTensor2).

Definition exec (s : Self) (o : Op) : Self :=
  match o with
  | op_train => {| anchors := anchors s; training := true; invoked := invoked s |}
  | op_eval => {| anchors := anchors s; training := false; invoked := invoked s |}
  | op_forward L feature_map gt_boxes gt_classes =>
      snd (forward L feature_map gt_boxes gt_classes s)
  end.

Definition run (s : Self) (ops : list Op) : Self := fold_left exec ops s.

End RPN.

(** ** [FasterRCNN]: model.py, lines 13-68 *)

Module FasterRCNN.

(** The Python values that cross the boundary between the two classes. *)
Inductive PyVal : Type :=
| PyNone
| PyNum (r : R)
| PyTensor3 (t : Tensor3)
| PyIntTensor2 (t : IntTensor2).

Definition of_option {X : Type} (inj : X -> PyVal) (o : option X) : PyVal :=
  match o with
  | Some x => inj x
  | None => PyNone
  end.

(** The tuple [self.rpn(...)] evaluates to: the [return] of [RPN.forward],
    rpn.py line 166. *)
Definition rpn_return (r : RPN.Ret) : list PyVal :=
  [PyTensor3 (RPN.rois r);
   of_option PyIntTensor2 (RPN.rois_labels r);
   of_option PyTensor3 (RPN.rois_coeffs r);
   PyNum (RPN.rpn_class_loss r);
   PyNum (RPN.rpn_bbox_loss r);
   PyNum (RPN.rpn_loss r)].

(** [a, b, c, d = t]: Python binds four names only to a tuple of four. *)
Definition unpack4 (t : list PyVal) : Result (PyVal * PyVal * PyVal * PyVal) :=
  match t with
  | [a; b; c; d] => Ok (a, b, c, d)
  | _ =>
      if Nat.ltb (length t) 4 then Raise (ValueError_not_enough_values 4 (length t))
      else Raise (ValueError_too_many_values 4)
  end.

Definition as_tensor3 (v : PyVal) : Result Tensor3 :=
  match v with
  | PyTensor3 t => Ok t
  | _ => Raise TypeError
  end.

Definition as_int_tensor2 (v : PyVal) : Result IntTensor2 :=
  match v with
  | PyIntTensor2 t => Ok t
  | _ => Raise TypeError
  end.

Definition as_num (v : PyVal) : Result R :=
  match v with
  | PyNum r => Ok r
  | _ => Raise TypeError
  end.

Fixpoint zip_cons (r : Tensor1) (cols : Tensor2) : Tensor2 :=
  match r, cols with
  | a :: r', c :: cols' => (a :: c) :: zip_cons r' cols'
  | _, _ => []
  end.

(** The transpose of a matrix given by its rows. *)
Fixpoint transpose (rows : Tensor2) : Tensor2 :=
  match rows with
  | [] => []
  | r :: rest =>
      match rest with
      | [] => map (fun a => [a]) r
      | _ => zip_cons r (transpose rest)
      end
  end.

(** [t.permute(0,2,1)] *)
Definition permute_021 (t : Tensor3) : Tensor3 := map transpose t.

(** The target of an N x C x R input must be N x R: as many images, and per
    image as many class indices as each of the C rows has entries. *)
Definition target_fits (input : Tensor3) (target : IntTensor2) : bool :=
  Nat.eqb (length input) (length target) &&
  forallb (fun p : Tensor2 * IntTensor1 =>
             forallb (fun class_row => Nat.eqb (length class_row) (length (snd p)))
                     (fst p))
          (combine input target).

(** [F.cross_entropy] on an N x C x R input and N x R class indices: the
    classes are along dimension 1, the mean is over the N * R positions.  A
    target of another shape raises RuntimeError. *)
Definition cross_entropy_dim1 (input : Tensor3) (target : IntTensor2) : Result R :=
  if target_fits input target
  then cross_entropy (concat (map transpose input)) (concat target)
  else Raise RuntimeError.

Fixpoint argmax_from (best : R) (best_i i : nat) (xs : list R) : nat :=
  match xs with
  | [] => best_i
  | x :: rest =>
      if Rlt_dec best x then argmax_from x i (S i) rest
      else argmax_from best best_i (S i) rest
  end.

(** [torch.argmax(t, dim=2)]: per row, the first index of a greatest entry. *)
Definition argmax_dim2 (t : Tensor3) : IntTensor2 :=
  map (map (fun row =>
    match row with
    | [] => 0%Z
    | x :: rest => Z.of_nat (argmax_from x 0 1 rest)
    end)) t.

Record Layers : Type := mkLayers {
  cnn : Tensor4 -> Tensor4;
  rpn_layers : RPN.Layers;
  pooling : Tensor3 -> Tensor4 -> list (list Tensor3);
  classification : list (list Tensor3) -> Tensor3 * Tensor3
}.

Record Self : Type := mkSelf {
  rpn : RPN.Self;
  training : bool
}.

(** Line 63: the regression loss of the head, over the whole
    N x R x (numClasses+1)*4 tensors. *)
Definition rcnn_bbox_loss (pred_rois_coeffs gt_rois_coeffs : Tensor3) : Result R :=
  smooth_l1_loss3 pred_rois_coeffs gt_rois_coeffs.

(** Lines 55-63. *)
Definition rcnn_losses (is_training : bool) (pred_rois_scores pred_rois_coeffs : Tensor3)
    (gt_rois_labels gt_rois_coeffs : PyVal) : Result (R * R) :=
  if is_training then
    labels <- as_int_tensor2 gt_rois_labels ;;
    rcnn_class_loss <- cross_entropy_dim1 (permute_021 pred_rois_scores) labels ;;
    coeffs <- as_tensor3 gt_rois_coeffs ;;
    bbox_loss <- rcnn_bbox_loss pred_rois_coeffs coeffs ;;
    Ok (rcnn_class_loss, bbox_loss)
  else Ok (0, 0).

(** The four values of the [return] statement (line 68). *)
Record Ret : Type := mkRet {
  rois : Tensor3;
  pred_rois_classes : IntTensor2;
  pred_rois_coeffs : Tensor3;
  rcnn_loss : R
}.

(** Lines 45-68: what follows the call of the RPN, given the tuple it
    returned. *)
Definition after_rpn (L : Layers) (is_training : bool) (feature_map : Tensor4)
    (rpn_out : list PyVal) : Result Ret :=
  unpacked <- unpack4 rpn_out ;;
  let '(rois_v, gt_rois_labels, gt_rois_coeffs, rpn_loss_v) := unpacked in
  rois0 <- as_tensor3 rois_v ;;
  let crops := pooling L rois0 feature_map in
  let (pred_rois_scores, pred_coeffs) := classification L crops in
  let pred_classes := argmax_dim2 pred_rois_scores in
  losses <- rcnn_losses is_training pred_rois_scores pred_coeffs
              gt_rois_labels gt_rois_coeffs ;;
  rpn_loss0 <- as_num rpn_loss_v ;;
  Ok {| rois := rois0; pred_rois_classes := pred_classes;
        pred_rois_coeffs := pred_coeffs;
        rcnn_loss := rpn_loss0 + fst losses + snd losses |}.

(** [FasterRCNN.forward] (lines 24-68). *)
Definition forward (L : Layers) (images : Tensor4) (gt_boxes : Tensor3)
    (gt_classes : IntTensor2) (s : Self) : Result Ret * Self :=
  let feature_map := cnn L images in
  let (r, rpn') := RPN.forward (rpn_layers L) feature_map gt_boxes gt_classes (rpn s) in
  let s' := {| rpn := rpn'; training := training s |} in
  (rpn_ret <- r ;; after_rpn L (training s) feature_map (rpn_return rpn_ret), s').

End FasterRCNN.

(** ** What the spec says about parts whose source is not in the two files *)

Module SpecModel.

(** Modelled from the spec: the box transform ([rpn/utils.py] is absent).
    Section 3: a Box is (x1,y1,x2,y2); Regression Coefficients are
    (dx,dy,dw,dh), "log-space for w/h, relative offset for x/y". *)
Record Box : Type := mkBox { x1 : R; y1 : R; x2 : R; y2 : R }.

Record Coeffs : Type := mkCoeffs { dx : R; dy : R; dw : R; dh : R }.

Definition width (b : Box) : R := x2 b - x1 b.
Definition height (b : Box) : R := y2 b - y1 b.
Definition ctr_x (b : Box) : R := x1 b + width b / 2.
Definition ctr_y (b : Box) : R := y1 b + height b / 2.

(** A box with positive width and height. *)
Definition non_degenerate (b : Box) : Prop := 0 < width b /\ 0 < height b.

(** Modelled from the spec: [encode(A, B)], the coefficients that deform the
    source box A into the target box B. *)
Definition encode (A B : Box) : Coeffs :=
  {| dx := (ctr_x B - ctr_x A) / width A;
     dy := (ctr_y B - ctr_y A) / height A;
     dw := ln (width B / width A);
     dh := ln (height B / height A) |}.

(** Modelled from the spec: [decode(A, c)], the box the coefficients [c]
    deform the source box A into. *)
Definition decode (A : Box) (c : Coeffs) : Box :=
  let cx := ctr_x A + dx c * width A in
  let cy := ctr_y A + dy c * height A in
  let w := width A * exp (dw c) in
  let h := height A * exp (dh c) in
  {| x1 := cx - w / 2; y1 := cy - h / 2; x2 := cx + w / 2; y2 := cy + h / 2 |}.

(** Modelled from the spec: [AnchorGeneration.generate_all]
    ([rpn/anchor_generation.py] is absent).  Section 4.1: one box per grid
    cell and anchor type, rows outermost, then columns, then the anchor type
    (ratio-major here), centred at ((col+0.5)*S, (row+0.5)*S); "No error
    conditions; pure function of configuration".  How the base dimensions
    derive from a scale and a ratio is left open there: [base] stands for it. *)
Definition generate_all (base : R -> R -> R * R) (img_size : nat * nat)
    (stride : nat) (scales ratios : list R) : Tensor2 :=
  let Hf := (fst img_size / stride)%nat in
  let Wf := (snd img_size / stride)%nat in
  flat_map (fun row => flat_map (fun col => flat_map (fun ratio =>
    map (fun scale =>
      let (w, h) := base scale ratio in
      let cx := (INR col + / 2) * INR stride in
      let cy := (INR row + / 2) * INR stride in
      [cx - w / 2; cy - h / 2; cx + w / 2; cy + h / 2]) scales)
    ratios) (seq 0 Wf)) (seq 0 Hf).

(** Modelled from the spec: the layout of the head's regression targets
    ([ProposalRefine] is absent).  Section 4.4, step 5: each RoI's row holds
    one slice of 4 entries per class; "only the slice corresponding to the
    RoI's assigned class is populated with the real target; all other class
    slices are zero".  [row_mask label row] marks the entries of the slice of
    class [label]. *)
Definition row_mask (label : Z) (row : Tensor1) : list bool :=
  map (fun j => (Z.of_nat (j / 4) =? label)%Z) (seq 0 (length row)).

(** The mask of a whole N x R x (numClasses+1)*4 tensor, in the order of its
    flattening. *)
Definition class_mask (labels : IntTensor2) (t : Tensor3) : list bool :=
  concat (map (fun p : IntTensor1 * Tensor2 =>
    concat (map (fun q : Z * Tensor1 => row_mask (fst q) (snd q))
                (combine (fst p) (snd p))))
    (combine labels t)).

Definition class_sliced (labels : IntTensor2) (gt_rois_coeffs : Tensor3) : Prop :=
  forall i, nth i (class_mask labels gt_rois_coeffs) true = false ->
            nth i (flat3 gt_rois_coeffs) 0 = 0.

(** Two predictions that agree on every entry of the assigned slices. *)
Definition agree_on_assigned (labels : IntTensor2) (p p' : Tensor3) : Prop :=
  shape3 p = shape3 p' /\
  forall i, nth i (class_mask labels p) false = true ->
            nth i (flat3 p) 0 = nth i (flat3 p') 0.

(** The column of the score tensor a label is scored against: "column 0 =
    foreground, column 1 = background", for the labels 1 = foreground,
    0 = background. *)
Definition FG_COLUMN : nat := 0.
Definition BG_COLUMN : nat := 1.

Definition score_column (label : Z) : nat :=
  if (label =? 1)%Z then FG_COLUMN else BG_COLUMN.

(** The cross-entropy of one score row against one column. *)
Definition ce_at (row : Tensor1) (col : nat) : R :=
  ln (Rsum (map exp row)) - nth col row 0.

(** One image's cross-entropy terms, one per sampled (label >= 0) anchor. *)
Definition sampled_ce_terms (score_n : Tensor2) (labels_n : IntTensor1) : list R :=
  flat_map (fun p : Tensor1 * Z =>
              if (0 <=? snd p)%Z then [ce_at (fst p) (score_column (snd p))] else [])
           (combine score_n labels_n).

(** One image's smooth-L1 terms, four per foreground (label = 1) anchor. *)
Definition fg_smooth_l1_terms (coeff_n target_n : Tensor2) (labels_n : IntTensor1)
    : list R :=
  flat_map (fun p : Tensor1 * Tensor1 * Z =>
              if (snd p =? 1)%Z then smooth_l1_terms (fst (fst p)) (snd (fst p)) else [])
           (combine (combine coeff_n target_n) labels_n).

Definition mean (xs : list R) : R := Rsum xs / INR (length xs).

(** The rows of [t_n] at the kept anchor indices. *)
Definition kept (anchors_idx : list nat) (t_n : Tensor2) : Tensor2 :=
  map (fun i => nth i t_n []) anchors_idx.

(** Per image, the mean cross-entropy over its sampled anchors; [score_kept]
    holds each image's score rows at the kept anchors. *)
Definition image_mean_ce (score_kept : Tensor3) (labels : IntTensor2) : list R :=
  map (fun p : Tensor2 * IntTensor1 => mean (sampled_ce_terms (fst p) (snd p)))
      (combine score_kept labels).

(** Per image, the mean smooth-L1 over its foreground anchors. *)
Definition image_mean_smooth_l1 (coeff_kept target_coeffs : Tensor3)
    (labels : IntTensor2) : list R :=
  map (fun p : Tensor2 * Tensor2 * IntTensor1 =>
         mean (fg_smooth_l1_terms (fst (fst p)) (snd (fst p)) (snd p)))
      (combine (combine coeff_kept target_coeffs) labels).

End SpecModel.

(** ** Shapes, read-only layers and sample data used by the statements below *)

Module Aux.

(** A layer record whose [proposal] and [anchor_refine] leave the anchor
    tensor they are handed as it is (spec, section 3: the Anchor Set is
    shared read-only with the Proposal Decoder and the Anchor Assigner). *)
Definition reads_anchors_only (L : RPN.Layers) : Prop :=
  (forall a s c, fst (RPN.proposal L a s c) = a) /\
  (forall a g, fst (RPN.anchor_refine L a g) = a).

Definition op_reads_anchors_only (o : RPN.Op) : Prop :=
  match o with
  | RPN.op_forward L _ _ _ => reads_anchors_only L
  | _ => True
  end.

(** The three values of an anchor label. *)
Definition is_label (l : Z) : Prop := l = (-1)%Z \/ l = 0%Z \/ l = 1%Z.

(** Two lists of rows of one length that hold the same row wherever the
    mask is set; elsewhere they may differ. *)
Definition rows_agree {X : Type} (mask : list bool) (xs ys : list X) : Prop :=
  length xs = length ys /\
  forall i, nth i mask false = true -> nth_error xs i = nth_error ys i.

(** Image [n] of two batches, compared on the rows the mask selects. *)
Definition image_agree (mask : list bool) (n : nat) (x y : Tensor3) : Prop :=
  match nth_error x n, nth_error y n with
  | Some a, Some b => rows_agree mask a b
  | None, None => True
  | _, _ => False
  end.

(** Two batches that agree, image by image, on the anchors whose label
    satisfies [keep]. *)
Definition batch_agree (keep : Z -> bool) (labels : IntTensor2) (x y : Tensor3) : Prop :=
  forall n labels_n,
    nth_error labels n = Some labels_n -> image_agree (map keep labels_n) n x y.

(** One image of a training batch is well shaped: a score row of 2 entries,
    a coefficient row and a target row of 4 entries per kept anchor, and
    labels among -1, 0, 1. *)
Definition image_ok (labels_n : IntTensor1) (score_n coeff_n target_n : Tensor2) : Prop :=
  length score_n = length labels_n /\
  length coeff_n = length labels_n /\
  length target_n = length labels_n /\
  Forall (fun row => length row = 2%nat) score_n /\
  Forall (fun row => length row = 4%nat) coeff_n /\
  Forall (fun row => length row = 4%nat) target_n /\
  Forall is_label labels_n.

(** A training batch is well shaped: as many images in the labels, the kept
    scores, the kept coefficients and the targets, each image well shaped. *)
Inductive images_ok : IntTensor2 -> Tensor3 -> Tensor3 -> Tensor3 -> Prop :=
| images_ok_nil : images_ok [] [] [] []
| images_ok_cons (labels_n : IntTensor1) (score_n coeff_n target_n : Tensor2)
    (labels : IntTensor2) (scores coeffs targets : Tensor3) :
    image_ok labels_n score_n coeff_n target_n ->
    images_ok labels scores coeffs targets ->
    images_ok (labels_n :: labels) (score_n :: scores) (coeff_n :: coeffs)
      (target_n :: targets).

(** Every kept anchor index is an anchor of every image of [t]. *)
Definition indices_in_range (anchors_idx : list nat) (t : Tensor3) : Prop :=
  Forall (fun t_n => Forall (fun i => (i < length t_n)%nat) anchors_idx) t.

(** What [anchor_refine] and the two heads hand the training branch for a
    batch of N >= 1 images. *)
Definition batch_ok (bbox_score bbox_coeff : Tensor3) (labels : IntTensor2)
    (target_coeffs : Tensor3) (anchors_idx : list nat) (gt_boxes : Tensor3) : Prop :=
  indices_in_range anchors_idx bbox_score /\
  indices_in_range anchors_idx bbox_coeff /\
  images_ok labels (map (SpecModel.kept anchors_idx) bbox_score)
    (map (SpecModel.kept anchors_idx) bbox_coeff) target_coeffs /\
  length gt_boxes = length labels /\
  (0 < length gt_boxes)%nat.

(** A base-dimension rule for the examples: a box [scale] wide and
    [scale * ratio] high. *)
Definition sample_base (scale ratio : R) : R * R := (scale, scale * ratio).

Definition sample_cfg : Config :=
  {| IMG_SIZE := (32, 32)%nat;
     RPN_ANCHOR_STRIDE := 16;
     RPN_ANCHOR_SCALES := [8];
     RPN_ANCHOR_RATIOS := [1];
     RES_OUT_CHANNEL := 1024;
     CONV_OUT_CHANNEL := 512;
     anchor_positive_threshold := 7 / 10;
     anchor_negative_threshold := 3 / 10;
     roi_fg_threshold := 1 / 2;
     roi_bg_threshold := 1 / 10 |}.

(** Layers for a batch of two images over four anchors, of which
    [anchor_refine] keeps the anchors 0, 1 and 3. *)
Definition sample_layers : RPN.Layers :=
  {| RPN.conv := fun x => x;
     RPN.conv_bbox_score := fun _ =>
       [[[1; 0]; [0; 2]; [3; 1]; [0; 0]]; [[0; 1]; [2; 2]; [1; 0]; [0; 3]]];
     RPN.conv_bbox_coeff := fun _ =>
       [[[0; 0; 0; 0]; [1; 0; 0; 0]; [0; 2; 0; 0]; [0; 0; 0; 1]];
        [[0; 1; 0; 0]; [0; 0; 0; 0]; [0; 0; 3; 0]; [1; 1; 0; 0]]];
     RPN.proposal := fun a s c => (a, ([[[1]]; [[2]]], [[[0; 0; 16; 16]]; [[8; 8; 24; 24]]]));
     RPN.anchor_refine := fun a g =>
       (a, ([[1; 0; -1]; [0; 1; 1]]%Z,
            [[[0; 0; 0; 0]; [0; 0; 0; 0]; [0; 0; 0; 0]];
             [[0; 0; 0; 0]; [1; 0; 0; 0]; [0; 0; 0; 2]]],
            [0; 1; 3]%nat));
     RPN.proposal_refine := fun r g c =>
       (r, [[1]; [0]]%Z, [[[0; 0; 0; 0; 1; 1; 1; 1]]; [[0; 0; 0; 0; 0; 0; 0; 0]]]) |}.

(** Constructors for the examples: the anchor generator of [SpecModel] with
    [sample_base], and layer constructors that accept.  (What the real
    constructors check is not in the sources.) *)
Definition sample_imports : RPN.Imports :=
  {| RPN.AnchorGeneration_generate_all :=
       fun img_size stride scales ratios =>
         Ok (SpecModel.generate_all sample_base img_size stride scales ratios);
     RPN.Conv2d := fun _ _ => Ok tt;
     RPN.Proposal := fun _ => Ok tt;
     RPN.AnchorRefine := fun _ => Ok tt;
     RPN.ProposalRefine := fun _ => Ok tt |}.

Definition sample_feature_map : Tensor4 := [[[[0]]]; [[[1]]]].
Definition sample_gt_boxes : Tensor3 := [[[0; 0; 16; 16]]; [[8; 8; 24; 24]]].
Definition sample_gt_classes : IntTensor2 := [[1]; [2]]%Z.

Definition sample_self (mode : bool) : RPN.Self :=
  {| RPN.anchors := SpecModel.generate_all sample_base (32, 32)%nat 16 [8] [1];
     RPN.training := mode;
     RPN.invoked := [] |}.

(** One RoI of class 1 among two classes: targets, a prediction equal to
    them, and a prediction that differs from it in the slice of class 0. *)
Definition sliced_labels : IntTensor2 := [[1]]%Z.
Definition sliced_gt : Tensor3 := [[[0; 0; 0; 0; 1; 1; 1; 1]]].
Definition sliced_pred : Tensor3 := [[[0; 0; 0; 0; 1; 1; 1; 1]]].
Definition sliced_pred' : Tensor3 := [[[1; 0; 0; 0; 1; 1; 1; 1]]].

(** A 1 x 4 x 1 x 2 tensor: two anchor types with two scores each, on a grid
    of one row and two columns. *)
Definition sample_scores : Flatten.Tensor :=
  {| Flatten.shape := [1; 4; 1; 2]%nat;
     Flatten.data := [10; 11; 20; 21; 30; 31; 40; 41] |}.


(** One image with a foreground, a background and an ignored anchor; two
    batches of scores, of coefficients and of targets that differ only where
    the loss does not look. *)
Definition agree_labels : IntTensor2 := [[1; 0; -1]]%Z.
Definition agree_scores : Tensor3 := [[[1; 0]; [0; 2]; [3; 1]]].
Definition agree_scores' : Tensor3 := [[[1; 0]; [0; 2]; [7; 7]]].
Definition agree_coeffs : Tensor3 := [[[0; 0; 0; 0]; [1; 0; 0; 0]; [0; 2; 0; 0]]].
Definition agree_coeffs' : Tensor3 := [[[0; 0; 0; 0]; [9; 9; 9; 9]; [5; 5; 5; 5]]].
Definition agree_targets : Tensor3 := [[[1; 1; 0; 0]; [0; 0; 0; 0]; [0; 0; 0; 0]]].
Definition agree_targets' : Tensor3 := [[[1; 1; 0; 0]; [4; 4; 4; 4]; [6; 6; 6; 6]]].

(** Three forward passes with a change of mode between them. *)
Definition sample_ops : list RPN.Op :=
  [RPN.op_forward sample_layers sample_feature_map sample_gt_boxes sample_gt_classes;
   RPN.op_eval;
   RPN.op_forward sample_layers sample_feature_map sample_gt_boxes sample_gt_classes;
   RPN.op_train;
   RPN.op_forward sample_layers sample_feature_map sample_gt_boxes sample_gt_classes].

End Aux.

(** ** Relations between two runs of [RPN.forward] *)

Module Relate.

(** [L] with its Proposal layer replaced by [p]. *)
Definition with_proposal (L : RPN.Layers)
    (p : Tensor2 -> Tensor3 -> Tensor3 -> Tensor2 * (Tensor3 * Tensor3)) : RPN.Layers :=
  {| RPN.conv := RPN.conv L;
     RPN.conv_bbox_score := RPN.conv_bbox_score L;
     RPN.conv_bbox_coeff := RPN.conv_bbox_coeff L;
     RPN.proposal := p;
     RPN.anchor_refine := RPN.anchor_refine L;
     RPN.proposal_refine := RPN.proposal_refine L |}.

(** Two Proposal layers that leave the same anchors and return the same
    rois; their [roi_scores] may differ. *)
Definition same_rois
    (p p' : Tensor2 -> Tensor3 -> Tensor3 -> Tensor2 * (Tensor3 * Tensor3)) : Prop :=
  forall a s c, fst (p a s c) = fst (p' a s c) /\ snd (snd (p a s c)) = snd (snd (p' a s c)).

(** Two batches with the same images count that hold the same rows at the
    kept anchor indices; at the other anchors they may differ. *)
Definition kept_agree (anchors_idx : list nat) (t t' : Tensor3) : Prop :=
  Forall2 (fun t_n t_n' => Forall (fun i => nth_error t_n i = nth_error t_n' i) anchors_idx)
          t t'.

(** The three losses of a returned tuple. *)
Definition losses (r : RPN.Ret) : R * R * R :=
  (RPN.rpn_class_loss r, RPN.rpn_bbox_loss r, RPN.rpn_loss r).

Definition rmap {X Y : Type} (f : X -> Y) (r : Result X) : Result Y :=
  match r with
  | Ok x => Ok (f x)
  | Raise e => Raise e
  end.

(** Layers like the sample ones, whose [anchor_refine] keeps an anchor index
    (7) that no image has. *)
Definition bad_index_layers : RPN.Layers :=
  {| RPN.conv := RPN.conv Aux.sample_layers;
     RPN.conv_bbox_score := RPN.conv_bbox_score Aux.sample_layers;
     RPN.conv_bbox_coeff := RPN.conv_bbox_coeff Aux.sample_layers;
     RPN.proposal := RPN.proposal Aux.sample_layers;
     RPN.anchor_refine := fun a g =>
       (a, ([[1; 0]; [0; 1]]%Z,
            [[[0; 0; 0; 0]; [0; 0; 0; 0]]; [[0; 0; 0; 0]; [1; 0; 0; 0]]],
            [0; 7]%nat));
     RPN.proposal_refine := RPN.proposal_refine Aux.sample_layers |}.

End Relate.

(** ** The training script: train.py, lines 31-84 *)

Module Train.

(** What the script draws and what torch does to the model between two
    forward passes: the two random tensors of an epoch (lines 38 and 42), and
    the layers after [rcnn_loss.backward()] and [optimizer.step()] (lines 62
    and 69), given the layers and the result of the pass. *)
Record Env : Type := mkEnv {
  num_epochs : nat;
  batch_size : nat;
  randn_images : nat -> Tensor4;
  randint_classes : nat -> IntTensor2;
  optimizer_step : FasterRCNN.Layers -> FasterRCNN.Ret -> FasterRCNN.Layers
}.

(** The model with its current weights, the number of [optimizer.step()]
    calls so far, and the losses printed so far (line 63). *)
Record State : Type := mkState {
  model : FasterRCNN.Self;
  layers : FasterRCNN.Layers;
  optimizer_steps : nat;
  printed : list R
}.

(** Lines 39-41: [batch_size] x 20 boxes, each (1, 1, 50, 50). *)
Definition synthetic_gt_boxes (batch_size : nat) : Tensor3 :=
  repeat (repeat [1; 1; 50; 50] 20) batch_size.

(** [model.train()]: the flag of the module and of its child modules. *)
Definition train (m : FasterRCNN.Self) : FasterRCNN.Self :=
  {| FasterRCNN.rpn :=
       {| RPN.anchors := RPN.anchors (FasterRCNN.rpn m);
          RPN.training := true;
          RPN.invoked := RPN.invoked (FasterRCNN.rpn m) |};
     FasterRCNN.training := true |}.

(** Lines 52-69: [k] more iterations of the inner loop.  An exception of the
    forward pass leaves the loop (and the script): nothing catches it. *)
Fixpoint steps (k : nat) (env : Env) (images : Tensor4) (gt_boxes : Tensor3)
    (gt_classes : IntTensor2) (st : State) : Result unit * State :=
  match k with
  | O => (Ok tt, st)
  | S k' =>
      let (r, m') :=
        FasterRCNN.forward (layers st) images gt_boxes gt_classes (model st) in
      match r with
      | Raise e =>
          (Raise e,
           {| model := m'; layers := layers st;
              optimizer_steps := optimizer_steps st; printed := printed st |})
      | Ok ret =>
          steps k' env images gt_boxes gt_classes
            {| model := m';
               layers := optimizer_step env (layers st) ret;
               optimizer_steps := S (optimizer_steps st);
               printed := printed st ++ [FasterRCNN.rcnn_loss ret] |}
      end
  end.

(** Lines 35-69: [n] more epochs, the next one being number [epoch]. *)
Fixpoint epochs (n epoch : nat) (env : Env) (st : State) : Result unit * State :=
  match n with
  | O => (Ok tt, st)
  | S n' =>
      let images := randn_images env epoch in
      let gt_boxes := synthetic_gt_boxes (batch_size env) in
      let gt_classes := randint_classes env epoch in
      let st1 :=
        {| model := train (model st); layers := layers st;
           optimizer_steps := optimizer_steps st; printed := printed st |} in
      match steps 10 env images gt_boxes gt_classes st1 with
      | (Ok _, st2) => epochs n' (S epoch) env st2
      | (Raise e, st2) => (Raise e, st2)
      end
  end.

(** [main()] *)
Definition main (env : Env) (st : State) : Result unit * State :=
  epochs (num_epochs env) 0 env st.

(** A run of two epochs on two images per batch, for the examples. *)
Definition sample_env : Env :=
  {| num_epochs := 2;
     batch_size := 2;
     randn_images := fun _ => Aux.sample_feature_map;
     randint_classes := fun _ => Aux.sample_gt_classes;
     optimizer_step := fun L _ => L |}.

Definition sample_state : State :=
  {| model := {| FasterRCNN.rpn := Aux.sample_self false; FasterRCNN.training := false |};
     layers :=
       {| FasterRCNN.cnn := fun x => x;
          FasterRCNN.rpn_layers := Aux.sample_layers;
          FasterRCNN.pooling := fun _ _ => [];
          FasterRCNN.classification := fun _ => ([], []) |};
     optimizer_steps := 0;
     printed := [] |}.

End Train.

(** * Properties *)

(** ** The boundary between [RPN.forward] and [FasterRCNN.forward] *)

Lemma rpn_return_length (r : RPN.Ret) : length (FasterRCNN.rpn_return r) = 6%nat.
Proof. reflexivity. Qed.

Lemma unpack4_rpn_return (r : RPN.Ret) :
  FasterRCNN.unpack4 (FasterRCNN.rpn_return r) = Raise (ValueError_too_many_values 4).
Proof. reflexivity. Qed.

(** C1 (fails on the code): [RPN.forward] returns six values and
    [FasterRCNN.forward] binds four names to them, so whenever the RPN
    returns, the unpacking of line 40 raises ValueError (too many values to
    unpack); the full model's forward never produces a result. *)
Theorem FasterRCNN_forward_unpacking_raises
    (L : FasterRCNN.Layers) (images : Tensor4) (gt_boxes : Tensor3)
    (gt_classes : IntTensor2) (s : FasterRCNN.Self) :
  fst (FasterRCNN.forward L images gt_boxes gt_classes s) =
  rbind (fst (RPN.forward (FasterRCNN.rpn_layers L) (FasterRCNN.cnn L images)
                gt_boxes gt_classes (FasterRCNN.rpn s)))
        (fun _ => Raise (ValueError_too_many_values 4)).
Proof.
  unfold FasterRCNN.forward.
  destruct (RPN.forward _ _ _ _ _) as [[ret | e] rpn']; simpl.
  - unfold FasterRCNN.after_rpn. now rewrite unpack4_rpn_return.
  - reflexivity.
Qed.

(** ** [RPN.forward] at inference time *)

Lemma app_four {X : Type} (l : list X) (a b c d : X) :
  (((l ++ [a]) ++ [b]) ++ [c]) ++ [d] = l ++ [a; b; c; d].
Proof. now rewrite <- !app_assoc. Qed.

(** C3: with [self.training] false, [forward] returns the boxes of the
    Proposal layer as [rois], None for [rois_labels] and [rois_coeffs], and
    zero for the three losses; the layers it invokes are the three
    convolutions and [proposal], so neither [anchor_refine] nor
    [proposal_refine] runs. *)
Theorem forward_inference
    (L : RPN.Layers) (feature_map : Tensor4) (gt_boxes : Tensor3)
    (gt_classes : IntTensor2) (s : RPN.Self) :
  RPN.training s = false ->
  fst (RPN.forward L feature_map gt_boxes gt_classes s) =
    Ok {| RPN.rois :=
            snd (snd (RPN.proposal L (RPN.anchors s)
                        (RPN.conv_bbox_score L (RPN.conv L feature_map))
                        (RPN.conv_bbox_coeff L (RPN.conv L feature_map))));
          RPN.rois_labels := None;
          RPN.rois_coeffs := None;
          RPN.rpn_class_loss := 0;
          RPN.rpn_bbox_loss := 0;
          RPN.rpn_loss := 0 |} /\
  RPN.invoked (snd (RPN.forward L feature_map gt_boxes gt_classes s)) =
    RPN.invoked s ++ [RPN.L_conv; RPN.L_conv_bbox_score; RPN.L_conv_bbox_coeff;
                      RPN.L_proposal].
Proof.
  intros Hmode.
  unfold RPN.forward, RPN.bind, RPN.invoke, RPN.invoke_on_anchors,
    RPN.get_training, RPN.ret, RPN.log; simpl.
  destruct (RPN.proposal L _ _ _) as [a' [roi_scores rois0]]; simpl.
  rewrite Hmode; simpl.
  split; [reflexivity | apply app_four].
Qed.

Lemma forward_inference_witness :
  fst (RPN.forward Aux.sample_layers Aux.sample_feature_map Aux.sample_gt_boxes
         Aux.sample_gt_classes (Aux.sample_self false)) =
    Ok (RPN.mkRet [[[0; 0; 16; 16]]; [[8; 8; 24; 24]]] None None 0 0 0) /\
  RPN.invoked (snd (RPN.forward Aux.sample_layers Aux.sample_feature_map Aux.sample_gt_boxes
                      Aux.sample_gt_classes (Aux.sample_self false))) =
    [RPN.L_conv; RPN.L_conv_bbox_score; RPN.L_conv_bbox_coeff; RPN.L_proposal].
Proof.
  destruct (forward_inference Aux.sample_layers Aux.sample_feature_map Aux.sample_gt_boxes
              Aux.sample_gt_classes (Aux.sample_self false) eq_refl) as [Hret Hlog].
  split.
  - rewrite Hret. reflexivity.
  - rewrite Hlog. reflexivity.
Defined.

(** ** The box transform *)

Lemma exp_ln_ratio (a b : R) : 0 < a -> 0 < b -> a * exp (ln (b / a)) = b.
Proof.
  intros Ha Hb.
  rewrite exp_ln.
  - field. lra.
  - apply Rdiv_lt_0_compat; assumption.
Qed.

(** C8: over the reals the round trip is exact: decoding from A the
    coefficients that encode B against A gives B back, for boxes of positive
    width and height. *)
Theorem decode_encode (A B : SpecModel.Box) :
  SpecModel.non_degenerate A -> SpecModel.non_degenerate B ->
  SpecModel.decode A (SpecModel.encode A B) = B.
Proof.
  intros [HwA HhA] [HwB HhB].
  destruct B as [bx1 by1 bx2 by2].
  unfold SpecModel.decode, SpecModel.encode; cbn [SpecModel.dx SpecModel.dy SpecModel.dw SpecModel.dh].
  rewrite (exp_ln_ratio _ _ HwA HwB), (exp_ln_ratio _ _ HhA HhB).
  unfold SpecModel.ctr_x, SpecModel.ctr_y, SpecModel.width, SpecModel.height in *.
  cbn [SpecModel.x1 SpecModel.y1 SpecModel.x2 SpecModel.y2] in *.
  f_equal; field; lra.
Qed.

Lemma decode_encode_witness :
  SpecModel.decode (SpecModel.mkBox 0 0 16 16)
    (SpecModel.encode (SpecModel.mkBox 0 0 16 16) (SpecModel.mkBox 4 2 12 20)) =
  SpecModel.mkBox 4 2 12 20.
Proof.
  apply decode_encode; unfold SpecModel.non_degenerate, SpecModel.width, SpecModel.height;
    simpl; lra.
Defined.

(** ** Construction *)



(** ** The anchors across forward passes *)

Lemma forward_keeps_anchors (L : RPN.Layers) (feature_map : Tensor4)
    (gt_boxes : Tensor3) (gt_classes : IntTensor2) (s : RPN.Self) :
  Aux.reads_anchors_only L ->
  RPN.anchors (snd (RPN.forward L feature_map gt_boxes gt_classes s)) = RPN.anchors s.
Proof.
  intros [Hp Ha].
  unfold RPN.forward, RPN.bind, RPN.invoke, RPN.invoke_on_anchors,
    RPN.get_training, RPN.ret, RPN.lift, RPN.log; simpl.
  specialize (Hp (RPN.anchors s) (RPN.conv_bbox_score L (RPN.conv L feature_map))
                 (RPN.conv_bbox_coeff L (RPN.conv L feature_map))).
  destruct (RPN.proposal L _ _ _) as [a' [roi_scores rois0]]; simpl in *.
  destruct (RPN.training s); simpl.
  - specialize (Ha a' gt_boxes).
    destruct (RPN.anchor_refine L a' gt_boxes) as [a'' [[labels target_coeffs] idx]];
      simpl in *.
    destruct (RPN.training_losses _ _ _ _ _ _) as [[[c b] l] | e]; simpl.
    + destruct (RPN.proposal_refine L _ _ _) as [[r l1] c1]; simpl. congruence.
    + congruence.
  - assumption.
Qed.

Lemma exec_keeps_anchors (s : RPN.Self) (o : RPN.Op) :
  Aux.op_reads_anchors_only o -> RPN.anchors (RPN.exec s o) = RPN.anchors s.
Proof.
  destruct o; simpl; intros H; try reflexivity.
  now apply forward_keeps_anchors.
Qed.

(** C10: the anchors are generated once, by [__init__]; after any sequence of
    [train()], [eval()] and [forward] calls, [self.anchors] is still the
    tensor the generator returned at construction (the layers handed the
    tensor being read-only on it). *)
Theorem anchors_fixed_after_init (I : RPN.Imports) (cfg : Config) (s : RPN.Self)
    (ops : list RPN.Op) :
  RPN.init I cfg = Ok s ->
  Forall Aux.op_reads_anchors_only ops ->
  RPN.AnchorGeneration_generate_all I (IMG_SIZE cfg) (RPN_ANCHOR_STRIDE cfg)
    (RPN_ANCHOR_SCALES cfg) (RPN_ANCHOR_RATIOS cfg) = Ok (RPN.anchors (RPN.run s ops)) /\
  RPN.anchors (RPN.run s ops) = RPN.anchors s.
Proof.
  intros Hinit Hops.
  assert (Hrun : RPN.anchors (RPN.run s ops) = RPN.anchors s).
  { clear Hinit. revert s. unfold RPN.run.
    induction Hops as [| o ops Ho _ IH]; intros s; simpl.
    - reflexivity.
    - rewrite IH. now apply exec_keeps_anchors. }
  split; [| exact Hrun].
  rewrite Hrun. unfold RPN.init in Hinit.
  destruct (RPN.AnchorGeneration_generate_all I _ _ _ _) as [a | e]; simpl in Hinit;
    [| discriminate].
  repeat match type of Hinit with
         | rbind ?r _ = Ok _ => destruct r as [[] | ?]; simpl in Hinit; [| discriminate]
         end.
  injection Hinit as <-. reflexivity.
Qed.

Lemma anchors_fixed_after_init_witness :
  RPN.init (Aux.sample_imports) Aux.sample_cfg = Ok (Aux.sample_self true) /\
  RPN.anchors (RPN.run (Aux.sample_self true) Aux.sample_ops) =
  SpecModel.generate_all Aux.sample_base (32, 32)%nat 16 [8] [1].
Proof.
  split; [reflexivity |].
  apply (anchors_fixed_after_init (Aux.sample_imports) Aux.sample_cfg
           (Aux.sample_self true) Aux.sample_ops).
  - reflexivity.
  - unfold Aux.sample_ops.
    repeat constructor; simpl; intros; reflexivity.
Defined.

(** ** [Flatten] *)

Lemma tab_succ {X : Type} (n : nat) (f : nat -> list X) :
  Flatten.tab (S n) f = Flatten.tab n f ++ f n.
Proof.
  unfold Flatten.tab. rewrite seq_S, flat_map_app. simpl. now rewrite app_nil_r.
Qed.

Lemma tab_length {X : Type} (n m : nat) (f : nat -> list X) :
  (forall i, (i < n)%nat -> length (f i) = m) ->
  length (Flatten.tab n f) = (n * m)%nat.
Proof.
  induction n as [| n IH]; intros Hf.
  - reflexivity.
  - rewrite tab_succ, length_app, IH, Hf by auto with arith. lia.
Qed.

Lemma tab_nth_error {X : Type} (n m : nat) (f : nat -> list X) (i j : nat) :
  (forall i', (i' < n)%nat -> length (f i') = m) ->
  (i < n)%nat -> (j < m)%nat ->
  nth_error (Flatten.tab n f) (i * m + j) = nth_error (f i) j.
Proof.
  induction n as [| n IH]; intros Hf Hi Hj.
  - lia.
  - rewrite tab_succ.
    assert (Hlen : length (Flatten.tab n f) = (n * m)%nat)
      by (apply tab_length; auto with arith).
    destruct (Nat.eq_dec i n) as [-> | Hne].
    + rewrite nth_error_app2 by (rewrite Hlen; lia).
      rewrite Hlen. f_equal. lia.
    + rewrite nth_error_app1 by (rewrite Hlen; nia).
      apply IH; auto with arith. lia.
Qed.

Lemma nth_error_map_seq {X : Type} (g : nat -> X) (n c : nat) :
  (c < n)%nat -> nth_error (map g (seq 0 n)) c = Some (g c).
Proof.
  intros Hc.
  rewrite nth_error_map, nth_error_nth' with (d := 0%nat) by (rewrite length_seq; lia).
  now rewrite seq_nth.
Qed.

Lemma index_lt (a A b B : nat) : (a < A)%nat -> (b < B)%nat -> (a * B + b < A * B)%nat.
Proof. intros Ha Hb. nia. Qed.

(** The storage of the permuted tensor and the entry at each of its
    positions. *)
Lemma permuted_data (N C H W : nat) (xs : list R) :
  let ys := Flatten.tab N (fun n => Flatten.tab H (fun h => Flatten.tab W (fun w =>
              map (fun c => nth (((n * C + c) * H + h) * W + w)%nat xs 0) (seq 0 C)))) in
  length ys = (N * (H * (W * C)))%nat /\
  forall n h w c, (n < N)%nat -> (h < H)%nat -> (w < W)%nat -> (c < C)%nat ->
    nth_error ys (n * (H * (W * C)) + (h * (W * C) + (w * C + c))) =
    Some (nth (((n * C + c) * H + h) * W + w)%nat xs 0).
Proof.
  intros ys.
  assert (L1 : forall n h w,
             length (map (fun c => nth (((n * C + c) * H + h) * W + w)%nat xs 0) (seq 0 C)) = C)
    by (intros; now rewrite length_map, length_seq).
  assert (L2 : forall n h,
             length (Flatten.tab W (fun w =>
               map (fun c => nth (((n * C + c) * H + h) * W + w)%nat xs 0) (seq 0 C)))
             = (W * C)%nat)
    by (intros; apply tab_length; intros; apply L1).
  assert (L3 : forall n,
             length (Flatten.tab H (fun h => Flatten.tab W (fun w =>
               map (fun c => nth (((n * C + c) * H + h) * W + w)%nat xs 0) (seq 0 C))))
             = (H * (W * C))%nat)
    by (intros; apply tab_length; intros; apply L2).
  split.
  - apply tab_length; intros; apply L3.
  - intros n h w c Hn Hh Hw Hc. unfold ys.
    assert (B1 : (w * C + c < W * C)%nat) by nia.
    assert (B2 : (h * (W * C) + (w * C + c) < H * (W * C))%nat) by nia.
    rewrite (tab_nth_error N (H * (W * C))); [| intros; apply L3 | assumption | assumption].
    rewrite (tab_nth_error H (W * C)); [| intros; apply L2 | assumption | assumption].
    rewrite (tab_nth_error W C); [| intros; apply L1 | assumption | assumption].
    exact (nth_error_map_seq
             (fun c' => nth (((n * C + c') * H + h) * W + w)%nat xs 0) C c Hc).
Qed.

(** C6: on an N x (T*d) x H x W input, [Flatten(d).forward] returns an
    N x (H*W*T) x d tensor whose entry (n, (h*W + w)*T + t, k) is the input's
    entry (n, t*d + k, h, w): rows outermost, then columns, then the anchor
    type.  With d = 2 and d = 4 these are the N x A x 2 scores and the
    N x A x 4 coefficients, A = H*W*T. *)
Theorem Flatten_forward_entries (d N T H W : nat) (x : Flatten.Tensor) :
  Flatten.shape x = [N; T * d; H; W]%nat ->
  length (Flatten.data x) = (N * (T * d) * H * W)%nat ->
  (0 < N)%nat -> (0 < d)%nat ->
  exists y,
    Flatten.forward d x = Ok y /\
    Flatten.shape y = [N; H * W * T; d]%nat /\
    length (Flatten.data y) = (N * (H * W * T) * d)%nat /\
    forall n h w t k,
      (n < N)%nat -> (h < H)%nat -> (w < W)%nat -> (t < T)%nat -> (k < d)%nat ->
      exists v,
        Flatten.entry x [n; t * d + k; h; w]%nat = Some v /\
        Flatten.entry y [n; (h * W + w) * T + t; k]%nat = Some v.
Proof.
  intros Hshape Hlen HN Hd.
  destruct (permuted_data N (T * d) H W (Flatten.data x)) as [Hplen Hpnth].
  set (ys := Flatten.tab N _) in *.
  assert (Hnumel : (N * (H * (W * (T * d * 1))) = (H * W * T) * (N * d))%nat) by nia.
  exists {| Flatten.shape := [N; H * W * T; d]%nat; Flatten.data := ys |}.
  split; [| split; [reflexivity | split]].
  - unfold Flatten.forward, Flatten.permute_0231_contiguous, Flatten.size0.
    rewrite Hshape. cbn [rbind nth].
    unfold Flatten.view_infer_middle, Flatten.numel.
    cbn [Flatten.shape Flatten.data fold_right]. fold ys.
    rewrite Hnumel, Nat.Div0.mod_mul, Nat.div_mul by nia.
    destruct (Nat.eqb_spec (N * d) 0) as [E | _]; [nia |].
    reflexivity.
  - cbn [Flatten.data]. rewrite Hplen. nia.
  - intros n h w t k Hn Hh Hw Ht Hk.
    exists (nth (((n * (T * d) + (t * d + k)) * H + h) * W + w)%nat (Flatten.data x) 0).
    assert (Hc : (t * d + k < T * d)%nat) by nia.
    assert (Ha : ((h * W + w) * T + t < H * W * T)%nat)
      by (repeat apply index_lt; assumption).
    split.
    + unfold Flatten.entry. rewrite Hshape. cbn [Flatten.offset].
      destruct (Nat.ltb_spec n N); [| lia].
      destruct (Nat.ltb_spec (t * d + k) (T * d)); [| lia].
      destruct (Nat.ltb_spec h H); [| lia].
      destruct (Nat.ltb_spec w W); [| lia].
      rewrite (nth_error_nth' _ 0).
      * do 2 f_equal.
      * rewrite Hlen. simpl (0 * N + n)%nat.
        repeat apply index_lt; assumption.
    + unfold Flatten.entry. cbn [Flatten.shape Flatten.data Flatten.offset].
      destruct (Nat.ltb_spec n N); [| lia].
      destruct (Nat.ltb_spec ((h * W + w) * T + t) (H * W * T)); [| lia].
      destruct (Nat.ltb_spec k d); [| lia].
      rewrite <- (Hpnth n h w (t * d + k)%nat) by assumption.
      f_equal. nia.
Qed.

Lemma Flatten_forward_entries_witness :
  exists y,
    Flatten.forward 2 Aux.sample_scores = Ok y /\
    Flatten.shape y = [1; 4; 2]%nat /\
    length (Flatten.data y) = 8%nat /\
    forall n h w t k,
      (n < 1)%nat -> (h < 1)%nat -> (w < 2)%nat -> (t < 2)%nat -> (k < 2)%nat ->
      exists v,
        Flatten.entry Aux.sample_scores [n; t * 2 + k; h; w]%nat = Some v /\
        Flatten.entry y [n; (h * 2 + w) * 2 + t; k]%nat = Some v.
Proof.
  apply (Flatten_forward_entries 2 1 2 1 2 Aux.sample_scores);
    [reflexivity | reflexivity | lia | lia].
Defined.

(** On the sample the scores of one cell and anchor type end up in one row. *)
Example Flatten_forward_sample :
  Flatten.forward 2 Aux.sample_scores =
  Ok {| Flatten.shape := [1; 4; 2]%nat;
        Flatten.data := [10; 20; 30; 40; 11; 21; 31; 41] |}.
Proof. reflexivity. Qed.

(** ** The regression loss of the head *)

Lemma smooth_l1_0 : smooth_l1 0 = 0.
Proof.
  unfold smooth_l1. rewrite Rabs_R0.
  destruct (Rlt_dec 0 1); lra.
Qed.

Lemma smooth_l1_1 : smooth_l1 1 = / 2.
Proof.
  unfold smooth_l1. rewrite Rabs_R1.
  destruct (Rlt_dec 1 1); lra.
Qed.

Lemma smooth_l1_zero_iff (p : R) : smooth_l1 p = 0 <-> p = 0.
Proof.
  split.
  - unfold smooth_l1. destruct (Rlt_dec (Rabs p) 1) as [Hlt | Hge]; intros H.
    + assert (Hp : p * p = 0) by lra.
      apply Rmult_integral in Hp. tauto.
    + exfalso. lra.
  - intros ->. apply smooth_l1_0.
Qed.

Lemma Rsum_select_split (m : list bool) :
  forall xs ys : list R,
    length m = length xs -> length xs = length ys ->
    (forall i, nth i m true = false -> nth i ys 0 = 0) ->
    Rsum (smooth_l1_terms xs ys) =
    Rsum (select m (smooth_l1_terms xs ys)) +
    Rsum (map smooth_l1 (select (map negb m) xs)).
Proof.
  induction m as [| b m IH]; intros [| x xs] [| y ys] Hm Hxy Hzero; simpl in *;
    try discriminate; try lra.
  assert (Htail : forall i, nth i m true = false -> nth i ys 0 = 0)
    by (intros i Hi; exact (Hzero (S i) Hi)).
  specialize (IH xs ys ltac:(lia) ltac:(lia) Htail).
  destruct b; simpl.
  - unfold Rsum in *. lra.
  - rewrite (Hzero 0%nat eq_refl), Rminus_0_r. unfold Rsum in *. lra.
Qed.

Lemma shape3_flat_length (a b : Tensor3) :
  shape3 a = shape3 b -> length (flat3 a) = length (flat3 b).
Proof.
  intros H.
  assert (E : forall t : Tensor3,
             length (flat3 t) = list_sum (map (fun s => list_sum s) (shape3 t))).
  { intros t. unfold flat3, shape3, shape2, flat2.
    rewrite length_concat, !map_map. f_equal.
    apply map_ext. intros r. apply length_concat. }
  now rewrite !E, H.
Qed.

Lemma row_masks_length (ls : IntTensor1) :
  forall rows : Tensor2,
    length ls = length rows ->
    length (concat (map (fun q : Z * Tensor1 => SpecModel.row_mask (fst q) (snd q))
                        (combine ls rows))) = length (flat2 rows).
Proof.
  induction ls as [| l ls IH]; intros [| row rows] H; simpl in *; try discriminate;
    try reflexivity.
  unfold flat2 in *. simpl. rewrite !length_app, IH by lia.
  unfold SpecModel.row_mask. now rewrite length_map, length_seq.
Qed.

Lemma class_mask_length (labels : IntTensor2) :
  forall t : Tensor3,
    map (@length Z) labels = map (@length Tensor1) t ->
    length (SpecModel.class_mask labels t) = length (flat3 t).
Proof.
  induction labels as [| ls labels IH]; intros [| rows t] H; simpl in *;
    try discriminate; try reflexivity.
  injection H as Hrow Hrest.
  unfold SpecModel.class_mask, flat3 in *. simpl.
  rewrite !length_app, IH by assumption.
  now rewrite row_masks_length.
Qed.

(** C2 (as amended): the head's regression loss is one unmasked smooth-L1
    over the whole tensor.  With class-sliced targets it is the sum of the
    assigned slices' terms smooth_l1(pred - target) and of smooth_l1(pred)
    over every entry of the other slices, divided by the number of entries;
    an entry of another slice adds nothing only when the predicted
    coefficient there is itself zero. *)
Theorem rcnn_bbox_loss_scores_every_slice
    (labels : IntTensor2) (pred_rois_coeffs gt_rois_coeffs : Tensor3) :
  shape3 pred_rois_coeffs = shape3 gt_rois_coeffs ->
  map (@length Z) labels = map (@length Tensor1) gt_rois_coeffs ->
  SpecModel.class_sliced labels gt_rois_coeffs ->
  FasterRCNN.rcnn_bbox_loss pred_rois_coeffs gt_rois_coeffs =
    Ok ((Rsum (select (SpecModel.class_mask labels gt_rois_coeffs)
                 (smooth_l1_terms (flat3 pred_rois_coeffs) (flat3 gt_rois_coeffs)))
         + Rsum (map smooth_l1
                   (select (map negb (SpecModel.class_mask labels gt_rois_coeffs))
                      (flat3 pred_rois_coeffs))))
        / INR (length (flat3 pred_rois_coeffs))) /\
  (forall p, smooth_l1 p = 0 <-> p = 0).
Proof.
  intros Hshape Hlabels Hsliced.
  split; [| exact smooth_l1_zero_iff].
  unfold FasterRCNN.rcnn_bbox_loss, smooth_l1_loss3.
  destruct (list_eq_dec _ _ _) as [_ | Hne]; [| contradiction].
  do 2 f_equal.
  apply Rsum_select_split.
  - rewrite class_mask_length by assumption.
    symmetry. now apply shape3_flat_length.
  - now apply shape3_flat_length.
  - exact Hsliced.
Qed.

Lemma sliced_gt_is_class_sliced : SpecModel.class_sliced Aux.sliced_labels Aux.sliced_gt.
Proof.
  intros i. do 9 (destruct i as [| i]; simpl; try discriminate; try reflexivity).
Qed.

Lemma rcnn_bbox_loss_scores_every_slice_witness :
  FasterRCNN.rcnn_bbox_loss Aux.sliced_pred' Aux.sliced_gt =
  Ok ((Rsum [smooth_l1 (1 - 1); smooth_l1 (1 - 1); smooth_l1 (1 - 1); smooth_l1 (1 - 1)]
       + Rsum [smooth_l1 1; smooth_l1 0; smooth_l1 0; smooth_l1 0]) / INR 8).
Proof.
  apply (rcnn_bbox_loss_scores_every_slice Aux.sliced_labels Aux.sliced_pred' Aux.sliced_gt).
  - reflexivity.
  - reflexivity.
  - exact sliced_gt_is_class_sliced.
Defined.

(** C2 (as stated, refuted): two predictions that agree on the slice of the
    assigned class and differ in one entry of another slice get different
    losses against the same class-sliced targets. *)
Lemma other_slice_changes_rcnn_bbox_loss :
  SpecModel.class_sliced Aux.sliced_labels Aux.sliced_gt /\
  SpecModel.agree_on_assigned Aux.sliced_labels Aux.sliced_pred Aux.sliced_pred' /\
  FasterRCNN.rcnn_bbox_loss Aux.sliced_pred Aux.sliced_gt = Ok 0 /\
  FasterRCNN.rcnn_bbox_loss Aux.sliced_pred' Aux.sliced_gt = Ok (/ 16) /\
  0 <> / 16.
Proof.
  split; [exact sliced_gt_is_class_sliced | split; [| split; [| split; [| lra]]]].
  - split; [reflexivity |].
    intros i. do 9 (destruct i as [| i]; simpl; try discriminate; try reflexivity).
  - unfold FasterRCNN.rcnn_bbox_loss, smooth_l1_loss3.
    destruct (list_eq_dec _ _ _) as [_ | Hne]; [| exfalso; apply Hne; reflexivity].
    f_equal. simpl.
    replace (0 - 0) with 0 by lra. replace (1 - 1) with 0 by lra.
    rewrite smooth_l1_0. lra.
  - unfold FasterRCNN.rcnn_bbox_loss, smooth_l1_loss3.
    destruct (list_eq_dec _ _ _) as [_ | Hne]; [| exfalso; apply Hne; reflexivity].
    f_equal. simpl.
    replace (0 - 0) with 0 by lra. replace (1 - 1) with 0 by lra.
    replace (1 - 0) with 1 by lra.
    rewrite smooth_l1_0, smooth_l1_1. lra.
Qed.

(** ** The RPN loss: which anchors it reads *)

Lemma select_agree {X : Type} (mask : list bool) :
  forall xs ys : list X, Aux.rows_agree mask xs ys -> select mask xs = select mask ys.
Proof.
  induction mask as [| b mask IH]; intros [| x xs] [| y ys] [Hlen Hrows];
    simpl in *; try discriminate; try reflexivity.
  assert (Htail : Aux.rows_agree mask xs ys).
  { split; [lia |]. intros i Hi. exact (Hrows (S i) Hi). }
  destruct b.
  - specialize (Hrows 0%nat eq_refl). simpl in Hrows. injection Hrows as ->.
    f_equal. now apply IH.
  - now apply IH.
Qed.

Lemma masked_agree {X : Type} (mask : list bool) (xs ys : list X) :
  Aux.rows_agree mask xs ys -> masked mask xs = masked mask ys.
Proof.
  intros H. unfold masked.
  rewrite (select_agree mask xs ys H). destruct H as [-> _]. reflexivity.
Qed.

Lemma image_class_loss_agree (labels_n : IntTensor1) (n : nat) (s s' : Tensor3) :
  Aux.image_agree (map (fun l => (0 <=? l)%Z) labels_n) n s s' ->
  RPN.image_class_loss s labels_n n = RPN.image_class_loss s' labels_n n.
Proof.
  unfold Aux.image_agree, RPN.image_class_loss, get.
  destruct (nth_error s n) as [a |], (nth_error s' n) as [b |]; simpl;
    try contradiction; try reflexivity.
  intros H. now rewrite (masked_agree _ a b H).
Qed.

Lemma image_bbox_loss_agree (labels_n : IntTensor1) (n : nat) (c c' t t' : Tensor3) :
  Aux.image_agree (map (fun l => (l =? 1)%Z) labels_n) n c c' ->
  Aux.image_agree (map (fun l => (l =? 1)%Z) labels_n) n t t' ->
  RPN.image_bbox_loss c t labels_n n = RPN.image_bbox_loss c' t' labels_n n.
Proof.
  unfold Aux.image_agree, RPN.image_bbox_loss, get.
  destruct (nth_error c n) as [a |], (nth_error c' n) as [b |]; simpl;
    try contradiction; try reflexivity.
  intros Hc. rewrite (masked_agree _ a b Hc).
  destruct (masked _ b) as [pred |]; simpl; [| reflexivity].
  destruct (nth_error t n) as [u |], (nth_error t' n) as [v |]; simpl;
    try contradiction; try reflexivity.
  intros Ht. now rewrite (masked_agree _ u v Ht).
Qed.

Lemma loss_loop_agree (labels : IntTensor2) :
  forall (k : nat) (s s' c c' t t' : Tensor3) (acc : R * R),
    (forall j ls, nth_error labels j = Some ls ->
       Aux.image_agree (map (fun l => (0 <=? l)%Z) ls) (k + j) s s' /\
       Aux.image_agree (map (fun l => (l =? 1)%Z) ls) (k + j) c c' /\
       Aux.image_agree (map (fun l => (l =? 1)%Z) ls) (k + j) t t') ->
    RPN.loss_loop labels k s c t acc = RPN.loss_loop labels k s' c' t' acc.
Proof.
  induction labels as [| labels_n rest IH]; intros k s s' c c' t t' acc H; simpl.
  - reflexivity.
  - destruct (H 0%nat labels_n eq_refl) as (Hs & Hc & Ht).
    rewrite Nat.add_0_r in Hs, Hc, Ht.
    rewrite (image_class_loss_agree _ _ _ _ Hs), (image_bbox_loss_agree _ _ _ _ _ _ Hc Ht).
    destruct (RPN.image_class_loss s' labels_n k); simpl; [| reflexivity].
    destruct (RPN.image_bbox_loss c' t' labels_n k); simpl; [| reflexivity].
    apply IH. intros j ls Hj.
    replace (S k + j)%nat with (k + S j)%nat by lia.
    exact (H (S j) ls Hj).
Qed.

(** C4: the two sums of the training loop read the scores only at anchors
    with label >= 0 and the coefficients and targets only at anchors with
    label == 1.  Batches that differ at no other anchor than those (so in
    particular at anchors labelled -1 only) give the same classification
    and regression sums, and the same exception if one is raised. *)
Theorem ignored_anchors_do_not_contribute
    (labels : IntTensor2) (s s' c c' t t' : Tensor3) :
  Aux.batch_agree (fun l => (0 <=? l)%Z) labels s s' ->
  Aux.batch_agree (fun l => (l =? 1)%Z) labels c c' ->
  Aux.batch_agree (fun l => (l =? 1)%Z) labels t t' ->
  RPN.loss_loop labels 0 s c t (0, 0) = RPN.loss_loop labels 0 s' c' t' (0, 0).
Proof.
  intros Hs Hc Ht. apply loss_loop_agree.
  intros j ls Hj. simpl. auto.
Qed.

Lemma ignored_anchors_do_not_contribute_witness :
  RPN.loss_loop Aux.agree_labels 0 Aux.agree_scores Aux.agree_coeffs Aux.agree_targets (0, 0) =
  RPN.loss_loop Aux.agree_labels 0 Aux.agree_scores' Aux.agree_coeffs' Aux.agree_targets'
    (0, 0).
Proof.
  apply ignored_anchors_do_not_contribute;
    intros [| n] labels_n Hn; simpl in Hn;
    try (destruct n; discriminate);
    injection Hn as <-; (split; [reflexivity |]);
    intros i; do 4 (destruct i as [| i]; simpl; try discriminate; try reflexivity).
Defined.

(** ** The RPN loss: its value *)

Lemma nll_rows_sampled (rows : Tensor2) :
  forall ls : IntTensor1,
    length rows = length ls ->
    Forall (fun row => length row = 2%nat) rows ->
    Forall Aux.is_label ls ->
    nll_rows (select (map (fun l => (0 <=? l)%Z) ls) rows)
             (map (fun l => (1 - l)%Z) (select (map (fun l => (0 <=? l)%Z) ls) ls)) =
    Ok (SpecModel.sampled_ce_terms rows ls).
Proof.
  induction rows as [| row rows IH]; intros [| l ls] Hlen Hrows Hls; simpl in *;
    try discriminate; try reflexivity.
  inversion Hrows as [| ? ? Hrow Hrows']; subst.
  inversion Hls as [| ? ? Hl Hls']; subst.
  specialize (IH ls ltac:(lia) Hrows' Hls').
  unfold SpecModel.sampled_ce_terms in *. simpl.
  destruct Hl as [-> | [-> | ->]]; simpl.
  - exact IH.
  - rewrite IH. unfold nll. rewrite Hrow. reflexivity.
  - rewrite IH. unfold nll. rewrite Hrow. reflexivity.
Qed.

Lemma select_length {X Y : Type} (mask : list bool) :
  forall (xs : list X) (ys : list Y),
    length xs = length ys -> length (select mask xs) = length (select mask ys).
Proof.
  induction mask as [| b mask IH]; intros [| x xs] [| y ys] H; simpl in *;
    try discriminate; try reflexivity.
  destruct b; simpl; rewrite (IH xs ys) by lia; reflexivity.
Qed.

Lemma get_nth_error {X : Type} (n : nat) (t : list X) (x : X) :
  nth_error t n = Some x -> get n t = Ok x.
Proof. unfold get. now intros ->. Qed.

Lemma masked_same_length {X : Type} (mask : list bool) (xs : list X) :
  length mask = length xs -> masked mask xs = Ok (select mask xs).
Proof. unfold masked. intros ->. now rewrite Nat.eqb_refl. Qed.

Lemma image_class_loss_value (bbox_score_anchors : Tensor3) (labels_n : IntTensor1)
    (n : nat) (score_n : Tensor2) :
  nth_error bbox_score_anchors n = Some score_n ->
  length score_n = length labels_n ->
  Forall (fun row => length row = 2%nat) score_n ->
  Forall Aux.is_label labels_n ->
  RPN.image_class_loss bbox_score_anchors labels_n n =
  Ok (SpecModel.mean (SpecModel.sampled_ce_terms score_n labels_n)).
Proof.
  intros Hn Hlen Hrows Hls. unfold RPN.image_class_loss.
  rewrite (get_nth_error _ _ _ Hn); simpl.
  rewrite !masked_same_length by (rewrite length_map; lia); simpl.
  unfold cross_entropy.
  rewrite length_map, (select_length _ score_n labels_n Hlen), Nat.eqb_refl.
  now rewrite nll_rows_sampled.
Qed.

(** C5: the target index of a sampled anchor is 1 minus its label, so the
    classification loss of an image is the mean, over its anchors with
    label >= 0, of the cross-entropy of the anchor's score row against
    column 0 when the label is 1 (foreground) and against column 1 when it
    is 0 (background). *)
Theorem image_class_loss_columns (bbox_score_anchors : Tensor3)
    (labels_n : IntTensor1) (n : nat) (score_n : Tensor2) :
  nth_error bbox_score_anchors n = Some score_n ->
  length score_n = length labels_n ->
  Forall (fun row => length row = 2%nat) score_n ->
  Forall Aux.is_label labels_n ->
  RPN.image_class_loss bbox_score_anchors labels_n n =
    Ok (SpecModel.mean (SpecModel.sampled_ce_terms score_n labels_n)) /\
  SpecModel.score_column 1 = 0%nat /\
  SpecModel.score_column 0 = 1%nat /\
  (forall l, Aux.is_label l -> (0 <= l)%Z ->
             Z.to_nat (1 - l) = SpecModel.score_column l).
Proof.
  intros Hn Hlen Hrows Hls.
  split; [now apply image_class_loss_value |].
  split; [reflexivity | split; [reflexivity |]].
  intros l [-> | [-> | ->]] Hl; try reflexivity. lia.
Qed.

Lemma image_class_loss_columns_witness :
  RPN.image_class_loss Aux.agree_scores [1; 0; -1]%Z 0 =
  Ok (SpecModel.mean [SpecModel.ce_at [1; 0] SpecModel.FG_COLUMN;
                      SpecModel.ce_at [0; 2] SpecModel.BG_COLUMN]).
Proof.
  apply (image_class_loss_columns Aux.agree_scores [1; 0; -1]%Z 0
           [[1; 0]; [0; 2]; [3; 1]]).
  - reflexivity.
  - reflexivity.
  - repeat constructor.
  - repeat constructor; unfold Aux.is_label; lia.
Defined.

Lemma smooth_l1_terms_app (a : list R) :
  forall b c d : list R,
    length a = length b ->
    smooth_l1_terms (a ++ c) (b ++ d) = smooth_l1_terms a b ++ smooth_l1_terms c d.
Proof.
  induction a as [| x a IH]; intros [| y b] c d H; simpl in *; try discriminate.
  - reflexivity.
  - f_equal. apply IH. lia.
Qed.

Lemma smooth_l1_terms_length (a : list R) :
  forall b : list R, length a = length b -> length (smooth_l1_terms a b) = length a.
Proof.
  induction a as [| x a IH]; intros [| y b] H; simpl in *; try discriminate.
  - reflexivity.
  - f_equal. apply IH. lia.
Qed.

(** The foreground rows of the coefficients and of the targets have one
    shape, and their entries pair up row by row. *)
Lemma fg_rows_pair_up (ls : IntTensor1) :
  forall c t : Tensor2,
    length c = length ls -> length t = length ls ->
    Forall (fun row => length row = 4%nat) c ->
    Forall (fun row => length row = 4%nat) t ->
    let fg := map (fun l => (l =? 1)%Z) ls in
    shape2 (select fg c) = shape2 (select fg t) /\
    smooth_l1_terms (flat2 (select fg c)) (flat2 (select fg t)) =
      SpecModel.fg_smooth_l1_terms c t ls /\
    length (flat2 (select fg c)) = length (SpecModel.fg_smooth_l1_terms c t ls).
Proof.
  induction ls as [| l ls IH]; intros [| p c] [| q t] Hc Ht Fc Ft; simpl in *;
    try discriminate; try (repeat split; reflexivity).
  inversion Fc as [| ? ? Hp Fc']; subst.
  inversion Ft as [| ? ? Hq Ft']; subst.
  destruct (IH c t ltac:(lia) ltac:(lia) Fc' Ft') as (IH1 & IH2 & IH3).
  unfold SpecModel.fg_smooth_l1_terms in *. simpl.
  destruct (l =? 1)%Z; simpl.
  - unfold flat2 in *. simpl.
    rewrite smooth_l1_terms_app by congruence.
    rewrite !length_app, smooth_l1_terms_length by congruence.
    repeat split; congruence.
  - repeat split; assumption.
Qed.

Lemma image_bbox_loss_value (bbox_coeff_anchors target_coeffs : Tensor3)
    (labels_n : IntTensor1) (n : nat) (coeff_n target_n : Tensor2) :
  nth_error bbox_coeff_anchors n = Some coeff_n ->
  nth_error target_coeffs n = Some target_n ->
  length coeff_n = length labels_n -> length target_n = length labels_n ->
  Forall (fun row => length row = 4%nat) coeff_n ->
  Forall (fun row => length row = 4%nat) target_n ->
  RPN.image_bbox_loss bbox_coeff_anchors target_coeffs labels_n n =
  Ok (SpecModel.mean (SpecModel.fg_smooth_l1_terms coeff_n target_n labels_n)).
Proof.
  intros Hc Ht Lc Lt Fc Ft. unfold RPN.image_bbox_loss.
  rewrite (get_nth_error _ _ _ Hc); simpl.
  rewrite masked_same_length by (rewrite length_map; lia); simpl.
  rewrite (get_nth_error _ _ _ Ht); simpl.
  rewrite masked_same_length by (rewrite length_map; lia); simpl.
  destruct (fg_rows_pair_up labels_n coeff_n target_n Lc Lt Fc Ft) as (S1 & S2 & S3).
  unfold smooth_l1_loss2.
  destruct (list_eq_dec _ _ _) as [_ | Hne]; [| contradiction].
  unfold SpecModel.mean. now rewrite S2, S3.
Qed.

Lemma nth_error_middle {X : Type} (pre suf : list X) (x : X) :
  nth_error (pre ++ x :: suf) (length pre) = Some x.
Proof. rewrite nth_error_app2, Nat.sub_diag by lia. reflexivity. Qed.

Lemma loss_loop_sums (labels : IntTensor2) :
  forall (suf_s suf_c suf_t pre_s pre_c pre_t : Tensor3) (k : nat) (acc : R * R),
    length pre_s = k -> length pre_c = k -> length pre_t = k ->
    Aux.images_ok labels suf_s suf_c suf_t ->
    RPN.loss_loop labels k (pre_s ++ suf_s) (pre_c ++ suf_c) (pre_t ++ suf_t) acc =
    Ok (fst acc + Rsum (SpecModel.image_mean_ce suf_s labels),
        snd acc + Rsum (SpecModel.image_mean_smooth_l1 suf_c suf_t labels)).
Proof.
  induction labels as [| labels_n rest IH];
    intros suf_s suf_c suf_t pre_s pre_c pre_t k [a b] Ks Kc Kt Hok;
    inversion Hok as [| ? score_n coeff_n target_n ? ss cs ts Himg Hrest]; subst; simpl.
  - f_equal. f_equal; lra.
  - destruct Himg as (Ls & Lc & Lt & Fs & Fc & Ft & Fl).
    assert (Ns : nth_error (pre_s ++ score_n :: ss) (length pre_s) = Some score_n)
      by apply nth_error_middle.
    assert (Nc : nth_error (pre_c ++ coeff_n :: cs) (length pre_s) = Some coeff_n)
      by (rewrite <- Kc; apply nth_error_middle).
    assert (Nt : nth_error (pre_t ++ target_n :: ts) (length pre_s) = Some target_n)
      by (rewrite <- Kt; apply nth_error_middle).
    rewrite (image_class_loss_value _ _ _ score_n Ns Ls Fs Fl); simpl.
    rewrite (image_bbox_loss_value _ _ _ _ coeff_n target_n Nc Nt Lc Lt Fc Ft); simpl.
    replace (pre_s ++ score_n :: ss) with ((pre_s ++ [score_n]) ++ ss)
      by (now rewrite <- app_assoc).
    replace (pre_c ++ coeff_n :: cs) with ((pre_c ++ [coeff_n]) ++ cs)
      by (now rewrite <- app_assoc).
    replace (pre_t ++ target_n :: ts) with ((pre_t ++ [target_n]) ++ ts)
      by (now rewrite <- app_assoc).
    rewrite (IH ss cs ts) by (rewrite ?length_app; simpl; lia || assumption).
    unfold SpecModel.image_mean_ce, SpecModel.image_mean_smooth_l1. simpl.
    f_equal. f_equal; lra.
Qed.

Lemma mapM_get_kept (t_n : Tensor2) (idx : list nat) :
  Forall (fun i => (i < length t_n)%nat) idx ->
  mapM (fun i => index_row i t_n) idx = Ok (SpecModel.kept idx t_n).
Proof.
  induction 1 as [| i idx Hi _ IH]; simpl.
  - reflexivity.
  - rewrite IH. unfold index_row. now rewrite (nth_error_nth' t_n [] Hi).
Qed.

Lemma index_select_kept (t : Tensor3) (idx : list nat) :
  Aux.indices_in_range idx t ->
  index_select_dim1 t idx = Ok (map (SpecModel.kept idx) t).
Proof.
  unfold index_select_dim1.
  induction 1 as [| t_n t Hn _ IH]; simpl.
  - reflexivity.
  - now rewrite (mapM_get_kept t_n idx Hn), IH.
Qed.

Lemma average_value (labels : IntTensor2) (gt_boxes : Tensor3) (sum : R) :
  length gt_boxes = length labels -> (0 < length gt_boxes)%nat ->
  RPN.average labels gt_boxes sum = Ok (sum / INR (length gt_boxes)).
Proof.
  destruct labels, gt_boxes; simpl; intros H H0; try lia; reflexivity.
Qed.

Lemma training_losses_value (bbox_score bbox_coeff : Tensor3) (labels : IntTensor2)
    (target_coeffs : Tensor3) (anchors_idx : list nat) (gt_boxes : Tensor3) :
  Aux.batch_ok bbox_score bbox_coeff labels target_coeffs anchors_idx gt_boxes ->
  RPN.training_losses bbox_score bbox_coeff labels target_coeffs anchors_idx gt_boxes =
  Ok (Rsum (SpecModel.image_mean_ce (map (SpecModel.kept anchors_idx) bbox_score) labels)
        / INR (length gt_boxes),
      Rsum (SpecModel.image_mean_smooth_l1
              (map (SpecModel.kept anchors_idx) bbox_coeff) target_coeffs labels)
        / INR (length gt_boxes),
      Rsum (SpecModel.image_mean_ce (map (SpecModel.kept anchors_idx) bbox_score) labels)
        / INR (length gt_boxes)
      + Rsum (SpecModel.image_mean_smooth_l1
                (map (SpecModel.kept anchors_idx) bbox_coeff) target_coeffs labels)
        / INR (length gt_boxes)).
Proof.
  intros (Rs & Rc & Hok & Hlen & Hpos). unfold RPN.training_losses.
  rewrite (index_select_kept _ _ Rs), (index_select_kept _ _ Rc); cbn [rbind].
  pose proof (loss_loop_sums labels _ _ _ [] [] [] 0 (0, 0) eq_refl eq_refl eq_refl Hok)
    as Hloop.
  cbn [app fst snd] in Hloop. rewrite Hloop; cbn [rbind fst snd].
  rewrite !average_value by assumption; cbn [rbind].
  rewrite !Rplus_0_l. reflexivity.
Qed.

(** C7: in a training pass over a well-shaped batch of N images, each with
    at least one foreground anchor (so that no mean is taken over nothing,
    which gives nan in torch), [rpn_class_loss] is the sum over the images of
    the image's mean cross-entropy over its sampled anchors, divided by N;
    [rpn_bbox_loss] is the sum over the images of the image's mean smooth-L1
    over its foreground anchors, divided by N; and [rpn_loss] is their sum. *)
Theorem rpn_loss_is_batch_average
    (L : RPN.Layers) (feature_map : Tensor4) (gt_boxes : Tensor3)
    (gt_classes : IntTensor2) (s : RPN.Self)
    (labels : IntTensor2) (target_coeffs : Tensor3) (anchors_idx : list nat) :
  RPN.training s = true ->
  snd (RPN.anchor_refine L
         (fst (RPN.proposal L (RPN.anchors s)
                 (RPN.conv_bbox_score L (RPN.conv L feature_map))
                 (RPN.conv_bbox_coeff L (RPN.conv L feature_map))))
         gt_boxes) = (labels, target_coeffs, anchors_idx) ->
  Aux.batch_ok (RPN.conv_bbox_score L (RPN.conv L feature_map))
    (RPN.conv_bbox_coeff L (RPN.conv L feature_map))
    labels target_coeffs anchors_idx gt_boxes ->
  Forall (fun labels_n => In 1%Z labels_n) labels ->
  exists ret,
    fst (RPN.forward L feature_map gt_boxes gt_classes s) = Ok ret /\
    RPN.rpn_class_loss ret =
      Rsum (SpecModel.image_mean_ce
              (map (SpecModel.kept anchors_idx)
                   (RPN.conv_bbox_score L (RPN.conv L feature_map))) labels)
      / INR (length gt_boxes) /\
    RPN.rpn_bbox_loss ret =
      Rsum (SpecModel.image_mean_smooth_l1
              (map (SpecModel.kept anchors_idx)
                   (RPN.conv_bbox_coeff L (RPN.conv L feature_map)))
              target_coeffs labels)
      / INR (length gt_boxes) /\
    RPN.rpn_loss ret = RPN.rpn_class_loss ret + RPN.rpn_bbox_loss ret.
Proof.
  intros Hmode Hrefine Hok _.
  unfold RPN.forward, RPN.bind, RPN.invoke, RPN.invoke_on_anchors,
    RPN.get_training, RPN.ret, RPN.lift, RPN.log; simpl.
  destruct (RPN.proposal L _ _ _) as [a' [roi_scores rois0]]; simpl in *.
  rewrite Hmode; simpl.
  destruct (RPN.anchor_refine L a' gt_boxes) as [a'' refined]; simpl in *.
  subst refined.
  rewrite (training_losses_value _ _ _ _ _ _ Hok); simpl.
  destruct (RPN.proposal_refine L _ _ _) as [[r l1] c1]; simpl.
  eexists. split; [reflexivity |]. simpl. auto.
Qed.

Lemma sample_batch_ok :
  Aux.batch_ok
    (RPN.conv_bbox_score Aux.sample_layers (RPN.conv Aux.sample_layers Aux.sample_feature_map))
    (RPN.conv_bbox_coeff Aux.sample_layers (RPN.conv Aux.sample_layers Aux.sample_feature_map))
    [[1; 0; -1]; [0; 1; 1]]%Z
    [[[0; 0; 0; 0]; [0; 0; 0; 0]; [0; 0; 0; 0]];
     [[0; 0; 0; 0]; [1; 0; 0; 0]; [0; 0; 0; 2]]]
    [0; 1; 3]%nat Aux.sample_gt_boxes.
Proof.
  unfold Aux.batch_ok, Aux.indices_in_range, Aux.image_ok; simpl.
  repeat split; repeat constructor; unfold Aux.is_label; simpl; lia.
Qed.

Lemma rpn_loss_is_batch_average_witness :
  exists ret,
    fst (RPN.forward Aux.sample_layers Aux.sample_feature_map Aux.sample_gt_boxes
           Aux.sample_gt_classes (Aux.sample_self true)) = Ok ret /\
    RPN.rpn_class_loss ret =
      Rsum (SpecModel.image_mean_ce
              [[[1; 0]; [0; 2]; [0; 0]]; [[0; 1]; [2; 2]; [0; 3]]]
              [[1; 0; -1]; [0; 1; 1]]%Z) / INR 2 /\
    RPN.rpn_bbox_loss ret =
      Rsum (SpecModel.image_mean_smooth_l1
              [[[0; 0; 0; 0]; [1; 0; 0; 0]; [0; 0; 0; 1]];
               [[0; 1; 0; 0]; [0; 0; 0; 0]; [1; 1; 0; 0]]]
              [[[0; 0; 0; 0]; [0; 0; 0; 0]; [0; 0; 0; 0]];
               [[0; 0; 0; 0]; [1; 0; 0; 0]; [0; 0; 0; 2]]]
              [[1; 0; -1]; [0; 1; 1]]%Z) / INR 2 /\
    RPN.rpn_loss ret = RPN.rpn_class_loss ret + RPN.rpn_bbox_loss ret.
Proof.
  apply (rpn_loss_is_batch_average Aux.sample_layers Aux.sample_feature_map
           Aux.sample_gt_boxes Aux.sample_gt_classes (Aux.sample_self true)
           [[1; 0; -1]; [0; 1; 1]]%Z
           [[[0; 0; 0; 0]; [0; 0; 0; 0]; [0; 0; 0; 0]];
            [[0; 0; 0; 0]; [1; 0; 0; 0]; [0; 0; 0; 2]]]
           [0; 1; 3]%nat).
  - reflexivity.
  - reflexivity.
  - exact sample_batch_ok.
  - repeat constructor; simpl; tauto.
Defined.

(** * Further properties of the code *)

(** ** [RPN.forward] in training mode *)

(** The whole of [forward] in training mode, in terms of the training
    branch's losses. *)
Lemma forward_training_unfold
    (L : RPN.Layers) (feature_map : Tensor4) (gt_boxes : Tensor3)
    (gt_classes : IntTensor2) (s : RPN.Self) :
  RPN.training s = true ->
  RPN.forward L feature_map gt_boxes gt_classes s =
  let bbox_score := RPN.conv_bbox_score L (RPN.conv L feature_map) in
  let bbox_coeff := RPN.conv_bbox_coeff L (RPN.conv L feature_map) in
  let p := RPN.proposal L (RPN.anchors s) bbox_score bbox_coeff in
  let ar := RPN.anchor_refine L (fst p) gt_boxes in
  match RPN.training_losses bbox_score bbox_coeff (fst (fst (snd ar)))
          (snd (fst (snd ar))) (snd (snd ar)) gt_boxes with
  | Ok losses =>
      let pr := RPN.proposal_refine L (snd (snd p)) gt_boxes gt_classes in
      (Ok {| RPN.rois := fst (fst pr);
             RPN.rois_labels := Some (snd (fst pr));
             RPN.rois_coeffs := Some (snd pr);
             RPN.rpn_class_loss := fst (fst losses);
             RPN.rpn_bbox_loss := snd (fst losses);
             RPN.rpn_loss := snd losses |},
       {| RPN.anchors := fst ar; RPN.training := true;
          RPN.invoked := RPN.invoked s ++
            [RPN.L_conv; RPN.L_conv_bbox_score; RPN.L_conv_bbox_coeff; RPN.L_proposal;
             RPN.L_anchor_refine; RPN.L_proposal_refine] |})
  | Raise e =>
      (Raise e,
       {| RPN.anchors := fst ar; RPN.training := true;
          RPN.invoked := RPN.invoked s ++
            [RPN.L_conv; RPN.L_conv_bbox_score; RPN.L_conv_bbox_coeff; RPN.L_proposal;
             RPN.L_anchor_refine] |})
  end.
Proof.
  intros Hmode.
  unfold RPN.forward, RPN.bind, RPN.invoke, RPN.invoke_on_anchors,
    RPN.get_training, RPN.ret, RPN.lift, RPN.log; simpl.
  destruct (RPN.proposal L _ _ _) as [a' [roi_scores rois0]]; simpl.
  rewrite Hmode; simpl.
  destruct (RPN.anchor_refine L a' gt_boxes) as [a'' [[labels target_coeffs] idx]]; simpl.
  destruct (RPN.training_losses _ _ _ _ _ _) as [[[c b] l] | e]; simpl.
  - destruct (RPN.proposal_refine L _ _ _) as [[r l1] c1]; simpl.
    now rewrite <- !app_assoc.
  - now rewrite <- !app_assoc.
Qed.

(** X1: a training pass whose loss computation succeeds returns
    ProposalRefine's selection as [rois] (the Proposal layer's rois are
    overwritten), its labels and targets in place of None, and the three
    losses of the training branch; the six sub-layers ran once each, in the
    order of the source. *)
Theorem forward_training_returns
    (L : RPN.Layers) (feature_map : Tensor4) (gt_boxes : Tensor3)
    (gt_classes : IntTensor2) (s : RPN.Self) (losses : R * R * R) :
  RPN.training s = true ->
  RPN.training_losses
    (RPN.conv_bbox_score L (RPN.conv L feature_map))
    (RPN.conv_bbox_coeff L (RPN.conv L feature_map))
    (fst (fst (snd (RPN.anchor_refine L
       (fst (RPN.proposal L (RPN.anchors s)
               (RPN.conv_bbox_score L (RPN.conv L feature_map))
               (RPN.conv_bbox_coeff L (RPN.conv L feature_map)))) gt_boxes))))
    (snd (fst (snd (RPN.anchor_refine L
       (fst (RPN.proposal L (RPN.anchors s)
               (RPN.conv_bbox_score L (RPN.conv L feature_map))
               (RPN.conv_bbox_coeff L (RPN.conv L feature_map)))) gt_boxes))))
    (snd (snd (RPN.anchor_refine L
       (fst (RPN.proposal L (RPN.anchors s)
               (RPN.conv_bbox_score L (RPN.conv L feature_map))
               (RPN.conv_bbox_coeff L (RPN.conv L feature_map)))) gt_boxes)))
    gt_boxes = Ok losses ->
  fst (RPN.forward L feature_map gt_boxes gt_classes s) =
    Ok {| RPN.rois :=
            fst (fst (RPN.proposal_refine L
              (snd (snd (RPN.proposal L (RPN.anchors s)
                           (RPN.conv_bbox_score L (RPN.conv L feature_map))
                           (RPN.conv_bbox_coeff L (RPN.conv L feature_map)))))
              gt_boxes gt_classes));
          RPN.rois_labels :=
            Some (snd (fst (RPN.proposal_refine L
              (snd (snd (RPN.proposal L (RPN.anchors s)
                           (RPN.conv_bbox_score L (RPN.conv L feature_map))
                           (RPN.conv_bbox_coeff L (RPN.conv L feature_map)))))
              gt_boxes gt_classes)));
          RPN.rois_coeffs :=
            Some (snd (RPN.proposal_refine L
              (snd (snd (RPN.proposal L (RPN.anchors s)
                           (RPN.conv_bbox_score L (RPN.conv L feature_map))
                           (RPN.conv_bbox_coeff L (RPN.conv L feature_map)))))
              gt_boxes gt_classes));
          RPN.rpn_class_loss := fst (fst losses);
          RPN.rpn_bbox_loss := snd (fst losses);
          RPN.rpn_loss := snd losses |} /\
  RPN.invoked (snd (RPN.forward L feature_map gt_boxes gt_classes s)) =
    RPN.invoked s ++
      [RPN.L_conv; RPN.L_conv_bbox_score; RPN.L_conv_bbox_coeff; RPN.L_proposal;
       RPN.L_anchor_refine; RPN.L_proposal_refine].
Proof.
  intros Hmode Hloss.
  rewrite (forward_training_unfold L feature_map gt_boxes gt_classes s Hmode).
  cbv zeta. rewrite Hloss. split; reflexivity.
Qed.

Lemma forward_training_returns_witness :
  exists ret,
    fst (RPN.forward Aux.sample_layers Aux.sample_feature_map Aux.sample_gt_boxes
           Aux.sample_gt_classes (Aux.sample_self true)) = Ok ret /\
    RPN.rois ret = [[[0; 0; 16; 16]]; [[8; 8; 24; 24]]] /\
    RPN.rois_labels ret = Some [[1]; [0]]%Z /\
    RPN.invoked (snd (RPN.forward Aux.sample_layers Aux.sample_feature_map
                        Aux.sample_gt_boxes Aux.sample_gt_classes (Aux.sample_self true))) =
      [RPN.L_conv; RPN.L_conv_bbox_score; RPN.L_conv_bbox_coeff; RPN.L_proposal;
       RPN.L_anchor_refine; RPN.L_proposal_refine].
Proof.
  destruct (forward_training_returns Aux.sample_layers Aux.sample_feature_map
              Aux.sample_gt_boxes Aux.sample_gt_classes (Aux.sample_self true) _ eq_refl
              (training_losses_value _ _ _ _ _ _ sample_batch_ok)) as [Hret Hlog].
  eexists. split; [exact Hret |]. split; [reflexivity |]. split; [reflexivity |].
  exact Hlog.
Defined.

(** X2: when the loss computation of a training pass raises, [forward]
    raises that same exception, and it does so before ProposalRefine is
    called: the trace ends with [anchor_refine]. *)
Theorem forward_training_raises
    (L : RPN.Layers) (feature_map : Tensor4) (gt_boxes : Tensor3)
    (gt_classes : IntTensor2) (s : RPN.Self) (e : PyErr) :
  RPN.training s = true ->
  RPN.training_losses
    (RPN.conv_bbox_score L (RPN.conv L feature_map))
    (RPN.conv_bbox_coeff L (RPN.conv L feature_map))
    (fst (fst (snd (RPN.anchor_refine L
       (fst (RPN.proposal L (RPN.anchors s)
               (RPN.conv_bbox_score L (RPN.conv L feature_map))
               (RPN.conv_bbox_coeff L (RPN.conv L feature_map)))) gt_boxes))))
    (snd (fst (snd (RPN.anchor_refine L
       (fst (RPN.proposal L (RPN.anchors s)
               (RPN.conv_bbox_score L (RPN.conv L feature_map))
               (RPN.conv_bbox_coeff L (RPN.conv L feature_map)))) gt_boxes))))
    (snd (snd (RPN.anchor_refine L
       (fst (RPN.proposal L (RPN.anchors s)
               (RPN.conv_bbox_score L (RPN.conv L feature_map))
               (RPN.conv_bbox_coeff L (RPN.conv L feature_map)))) gt_boxes)))
    gt_boxes = Raise e ->
  fst (RPN.forward L feature_map gt_boxes gt_classes s) = Raise e /\
  RPN.invoked (snd (RPN.forward L feature_map gt_boxes gt_classes s)) =
    RPN.invoked s ++
      [RPN.L_conv; RPN.L_conv_bbox_score; RPN.L_conv_bbox_coeff; RPN.L_proposal;
       RPN.L_anchor_refine].
Proof.
  intros Hmode Hloss.
  rewrite (forward_training_unfold L feature_map gt_boxes gt_classes s Hmode).
  cbv zeta. rewrite Hloss. split; reflexivity.
Qed.

Lemma forward_training_raises_witness :
  fst (RPN.forward Relate.bad_index_layers Aux.sample_feature_map Aux.sample_gt_boxes
         Aux.sample_gt_classes (Aux.sample_self true)) = Raise RuntimeError /\
  RPN.invoked (snd (RPN.forward Relate.bad_index_layers Aux.sample_feature_map
                      Aux.sample_gt_boxes Aux.sample_gt_classes (Aux.sample_self true))) =
    [RPN.L_conv; RPN.L_conv_bbox_score; RPN.L_conv_bbox_coeff; RPN.L_proposal;
     RPN.L_anchor_refine].
Proof.
  apply (forward_training_raises Relate.bad_index_layers Aux.sample_feature_map
           Aux.sample_gt_boxes Aux.sample_gt_classes (Aux.sample_self true) RuntimeError);
    reflexivity.
Defined.

(** ** What [RPN.forward] leaves alone and what it does not read *)

(** X3: [forward] never changes [self.training] and only ever appends to the
    trace of invoked layers, starting with the three convolutions and the
    Proposal layer, in every mode, whatever the layers compute and whether
    it returns or raises. *)
Theorem forward_keeps_mode
    (L : RPN.Layers) (feature_map : Tensor4) (gt_boxes : Tensor3)
    (gt_classes : IntTensor2) (s : RPN.Self) :
  RPN.training (snd (RPN.forward L feature_map gt_boxes gt_classes s)) = RPN.training s /\
  exists later,
    RPN.invoked (snd (RPN.forward L feature_map gt_boxes gt_classes s)) =
    RPN.invoked s ++
      [RPN.L_conv; RPN.L_conv_bbox_score; RPN.L_conv_bbox_coeff; RPN.L_proposal] ++ later.
Proof.
  destruct (RPN.training s) eqn:Hmode.
  - rewrite (forward_training_unfold L feature_map gt_boxes gt_classes s Hmode).
    cbv zeta. destruct (RPN.training_losses _ _ _ _ _ _); simpl; split; try reflexivity.
    + now exists [RPN.L_anchor_refine; RPN.L_proposal_refine].
    + now exists [RPN.L_anchor_refine].
  - unfold RPN.forward, RPN.bind, RPN.invoke, RPN.invoke_on_anchors,
      RPN.get_training, RPN.ret, RPN.log; simpl.
    destruct (RPN.proposal L _ _ _) as [a' [roi_scores rois0]]; simpl.
    rewrite Hmode; simpl. split; [reflexivity |].
    exists []. now rewrite <- !app_assoc.
Qed.

Lemma index_row_ok_or_raises {X : Type} (i : nat) (t : list X) :
  (exists x, index_row i t = Ok x) \/ index_row i t = Raise RuntimeError.
Proof. unfold index_row. destruct (nth_error t i); eauto. Qed.

Lemma index_rows_ok_or_raise (t_n : Tensor2) (idx : list nat) :
  (exists rows, mapM (fun i => index_row i t_n) idx = Ok rows) \/
  mapM (fun i => index_row i t_n) idx = Raise RuntimeError.
Proof.
  induction idx as [| i idx IH]; simpl.
  - eauto.
  - destruct (index_row_ok_or_raises i t_n) as [[x ->] | ->]; simpl; [| now right].
    destruct IH as [[rows ->] | ->]; simpl; eauto.
Qed.

Lemma index_rows_raise (t_n : Tensor2) (idx : list nat) :
  Exists (fun i => (length t_n <= i)%nat) idx ->
  mapM (fun i => index_row i t_n) idx = Raise RuntimeError.
Proof.
  induction 1 as [i idx Hi | i idx _ IH]; simpl.
  - unfold index_row. apply nth_error_None in Hi. now rewrite Hi.
  - destruct (index_row_ok_or_raises i t_n) as [[x ->] | ->]; simpl; [| reflexivity].
    now rewrite IH.
Qed.

Lemma index_select_raises (t : Tensor3) (idx : list nat) :
  Exists (fun t_n => Exists (fun i => (length t_n <= i)%nat) idx) t ->
  index_select_dim1 t idx = Raise RuntimeError.
Proof.
  unfold index_select_dim1.
  induction 1 as [t_n t Hn | t_n t _ IH]; simpl.
  - now rewrite index_rows_raise.
  - destruct (index_rows_ok_or_raise t_n idx) as [[rows ->] | ->]; simpl;
      [| reflexivity].
    now rewrite IH.
Qed.

(** X5: when AnchorRefine hands back a kept anchor index that some image of
    the score tensor does not have, a training pass raises RuntimeError (the
    "index out of range" of [torch.index_select], line 131). *)
Theorem forward_training_index_out_of_range
    (L : RPN.Layers) (feature_map : Tensor4) (gt_boxes : Tensor3)
    (gt_classes : IntTensor2) (s : RPN.Self) :
  RPN.training s = true ->
  Exists (fun t_n =>
            Exists (fun i => (length t_n <= i)%nat)
              (snd (snd (RPN.anchor_refine L
                 (fst (RPN.proposal L (RPN.anchors s)
                         (RPN.conv_bbox_score L (RPN.conv L feature_map))
                         (RPN.conv_bbox_coeff L (RPN.conv L feature_map)))) gt_boxes))))
         (RPN.conv_bbox_score L (RPN.conv L feature_map)) ->
  fst (RPN.forward L feature_map gt_boxes gt_classes s) = Raise RuntimeError.
Proof.
  intros Hmode Hidx.
  rewrite (forward_training_unfold L feature_map gt_boxes gt_classes s Hmode).
  cbv zeta. unfold RPN.training_losses.
  now rewrite (index_select_raises _ _ Hidx).
Qed.

Lemma forward_training_index_out_of_range_witness :
  fst (RPN.forward Relate.bad_index_layers Aux.sample_feature_map Aux.sample_gt_boxes
         Aux.sample_gt_classes (Aux.sample_self true)) = Raise RuntimeError.
Proof.
  apply (forward_training_index_out_of_range Relate.bad_index_layers).
  - reflexivity.
  - simpl. apply Exists_cons_hd. apply Exists_cons_tl. apply Exists_cons_hd. simpl. lia.
Defined.

(** X6: the [roi_scores] the Proposal layer returns are never used
    (comment of line 117): replacing the Proposal layer by one that leaves
    the same anchors and returns the same rois, with any other scores,
    changes neither the result of [forward] nor the state it leaves. *)
Theorem roi_scores_are_never_used
    (L : RPN.Layers) (p : Tensor2 -> Tensor3 -> Tensor3 -> Tensor2 * (Tensor3 * Tensor3))
    (feature_map : Tensor4) (gt_boxes : Tensor3) (gt_classes : IntTensor2) (s : RPN.Self) :
  Relate.same_rois (RPN.proposal L) p ->
  RPN.forward (Relate.with_proposal L p) feature_map gt_boxes gt_classes s =
  RPN.forward L feature_map gt_boxes gt_classes s.
Proof.
  intros Hsame.
  unfold RPN.forward, RPN.bind, RPN.invoke, RPN.invoke_on_anchors,
    RPN.get_training, RPN.ret, RPN.lift, RPN.log; simpl.
  destruct (Hsame (RPN.anchors s) (RPN.conv_bbox_score L (RPN.conv L feature_map))
                  (RPN.conv_bbox_coeff L (RPN.conv L feature_map))) as [Ha Hr].
  destruct (RPN.proposal L _ _ _) as [a [roi_scores rois0]].
  destruct (p _ _ _) as [a' [roi_scores' rois0']].
  simpl in Ha, Hr. subst a' rois0'. reflexivity.
Qed.

Lemma roi_scores_are_never_used_witness :
  RPN.forward
    (Relate.with_proposal Aux.sample_layers
       (fun a s c => (a, (s, [[[0; 0; 16; 16]]; [[8; 8; 24; 24]]]))))
    Aux.sample_feature_map Aux.sample_gt_boxes Aux.sample_gt_classes (Aux.sample_self true) =
  RPN.forward Aux.sample_layers Aux.sample_feature_map Aux.sample_gt_boxes
    Aux.sample_gt_classes (Aux.sample_self true).
Proof.
  apply roi_scores_are_never_used.
  intros a s c. split; reflexivity.
Defined.

(** X7: at inference time the ground truth is not read (docstring, lines
    99-100): with [self.training] false, [forward] gives the same result and
    leaves the same state for any two [gt_boxes] and any two [gt_classes]. *)
Theorem inference_ignores_ground_truth
    (L : RPN.Layers) (feature_map : Tensor4) (gt_boxes gt_boxes' : Tensor3)
    (gt_classes gt_classes' : IntTensor2) (s : RPN.Self) :
  RPN.training s = false ->
  RPN.forward L feature_map gt_boxes gt_classes s =
  RPN.forward L feature_map gt_boxes' gt_classes' s.
Proof.
  intros Hmode.
  unfold RPN.forward, RPN.bind, RPN.invoke, RPN.invoke_on_anchors,
    RPN.get_training, RPN.ret, RPN.log; simpl.
  destruct (RPN.proposal L _ _ _) as [a' [roi_scores rois0]]; simpl.
  rewrite Hmode; simpl. reflexivity.
Qed.

Lemma inference_ignores_ground_truth_witness :
  RPN.forward Aux.sample_layers Aux.sample_feature_map Aux.sample_gt_boxes
    Aux.sample_gt_classes (Aux.sample_self false) =
  RPN.forward Aux.sample_layers Aux.sample_feature_map [] [] (Aux.sample_self false).
Proof. apply inference_ignores_ground_truth. reflexivity. Defined.

(** X8: [gt_classes] is used by ProposalRefine only (docstring, line 100):
    in every mode the three RPN losses, or the exception raised in their
    place, are the same for any two [gt_classes]. *)
Theorem rpn_losses_ignore_gt_classes
    (L : RPN.Layers) (feature_map : Tensor4) (gt_boxes : Tensor3)
    (gt_classes gt_classes' : IntTensor2) (s : RPN.Self) :
  Relate.rmap Relate.losses (fst (RPN.forward L feature_map gt_boxes gt_classes s)) =
  Relate.rmap Relate.losses (fst (RPN.forward L feature_map gt_boxes gt_classes' s)).
Proof.
  destruct (RPN.training s) eqn:Hmode.
  - rewrite !(forward_training_unfold L feature_map gt_boxes _ s Hmode).
    cbv zeta. destruct (RPN.training_losses _ _ _ _ _ _); reflexivity.
  - unfold RPN.forward, RPN.bind, RPN.invoke, RPN.invoke_on_anchors,
      RPN.get_training, RPN.ret, RPN.log; simpl.
    destruct (RPN.proposal L _ _ _) as [a' [roi_scores rois0]]; simpl.
    rewrite Hmode; simpl. reflexivity.
Qed.

(** ** The training branch: anchors it drops, labels it cannot take *)

Lemma mapM_get_agree (t_n t_n' : Tensor2) (idx : list nat) :
  Forall (fun i => nth_error t_n i = nth_error t_n' i) idx ->
  mapM (fun i => index_row i t_n) idx = mapM (fun i => index_row i t_n') idx.
Proof.
  induction 1 as [| i idx Hi _ IH]; simpl.
  - reflexivity.
  - unfold index_row at 1 3. now rewrite Hi, IH.
Qed.

Lemma index_select_agree (t t' : Tensor3) (idx : list nat) :
  Relate.kept_agree idx t t' -> index_select_dim1 t idx = index_select_dim1 t' idx.
Proof.
  unfold index_select_dim1.
  induction 1 as [| t_n t_n' t t' Hn _ IH]; simpl.
  - reflexivity.
  - now rewrite (mapM_get_agree t_n t_n' idx Hn), IH.
Qed.

(** X9: the training branch reads the score and coefficient tensors at the
    kept anchor indices only: two batches that hold the same rows at those
    indices (and anything at the anchors AnchorRefine dropped) give the same
    three losses, or the same exception. *)
Theorem dropped_anchors_do_not_contribute
    (bbox_score bbox_score' bbox_coeff bbox_coeff' : Tensor3) (labels : IntTensor2)
    (target_coeffs : Tensor3) (anchors_idx : list nat) (gt_boxes : Tensor3) :
  Relate.kept_agree anchors_idx bbox_score bbox_score' ->
  Relate.kept_agree anchors_idx bbox_coeff bbox_coeff' ->
  RPN.training_losses bbox_score bbox_coeff labels target_coeffs anchors_idx gt_boxes =
  RPN.training_losses bbox_score' bbox_coeff' labels target_coeffs anchors_idx gt_boxes.
Proof.
  intros Hs Hc. unfold RPN.training_losses.
  now rewrite (index_select_agree _ _ _ Hs), (index_select_agree _ _ _ Hc).
Qed.

Lemma dropped_anchors_do_not_contribute_witness :
  RPN.training_losses
    [[[1; 0]; [0; 2]; [3; 1]; [0; 0]]; [[0; 1]; [2; 2]; [1; 0]; [0; 3]]]
    [[[0; 0; 0; 0]; [1; 0; 0; 0]; [0; 2; 0; 0]; [0; 0; 0; 1]];
     [[0; 1; 0; 0]; [0; 0; 0; 0]; [0; 0; 3; 0]; [1; 1; 0; 0]]]
    [[1; 0; -1]; [0; 1; 1]]%Z
    [[[0; 0; 0; 0]; [0; 0; 0; 0]; [0; 0; 0; 0]];
     [[0; 0; 0; 0]; [1; 0; 0; 0]; [0; 0; 0; 2]]]
    [0; 1; 3]%nat Aux.sample_gt_boxes =
  RPN.training_losses
    [[[1; 0]; [0; 2]; [9; 9]; [0; 0]]; [[0; 1]; [2; 2]; [8; 8]; [0; 3]]]
    [[[0; 0; 0; 0]; [1; 0; 0; 0]; [7; 7; 7; 7]; [0; 0; 0; 1]];
     [[0; 1; 0; 0]; [0; 0; 0; 0]; [6; 6; 6; 6]; [1; 1; 0; 0]]]
    [[1; 0; -1]; [0; 1; 1]]%Z
    [[[0; 0; 0; 0]; [0; 0; 0; 0]; [0; 0; 0; 0]];
     [[0; 0; 0; 0]; [1; 0; 0; 0]; [0; 0; 0; 2]]]
    [0; 1; 3]%nat Aux.sample_gt_boxes.
Proof.
  apply dropped_anchors_do_not_contribute; repeat constructor.
Defined.

Lemma nll_rows_negative_target (input : Tensor2) :
  forall target : IntTensor1,
    length input = length target ->
    Exists (fun t => (t < 0)%Z) target ->
    nll_rows input target = Raise IndexError.
Proof.
  induction input as [| x input IH]; intros [| t target] Hlen Hneg; simpl in *;
    try discriminate; inversion Hneg as [? ? Ht | ? ? Hrest]; subst.
  - unfold nll. destruct (Z.leb_spec 0 t); [lia |]. reflexivity.
  - unfold nll at 1.
    destruct ((0 <=? t)%Z && (t <? Z.of_nat (length x))%Z); simpl; [| reflexivity].
    now rewrite (IH target ltac:(lia) Hrest).
Qed.

Lemma select_flipped_negative (l : Z) (labels_n : IntTensor1) :
  In l labels_n -> (2 <= l)%Z ->
  Exists (fun t => (t < 0)%Z)
    (map (fun l' => (1 - l')%Z) (select (map (fun l' => (0 <=? l')%Z) labels_n) labels_n)).
Proof.
  intros Hin Hl.
  induction labels_n as [| l0 ls IH]; cbn [In map select] in Hin |- *; [contradiction |].
  destruct Hin as [-> | Hin].
  - destruct (Z.leb_spec 0 l); [| lia]. cbn [map]. apply Exists_cons_hd. lia.
  - destruct (0 <=? l0)%Z; cbn [map]; auto.
Qed.

(** X10: the flip [1 - label] of line 140 supports the labels 0 and 1 only.
    If some anchor of image [n] carries a class label of 2 or more, the
    target index of that anchor is negative and the classification loss of
    the image raises IndexError (target out of bounds).  (101 is excepted:
    its target is -100, the value [F.cross_entropy] skips by default.) *)
Theorem image_class_loss_rejects_class_labels
    (bbox_score_anchors : Tensor3) (labels_n : IntTensor1) (n : nat)
    (score_n : Tensor2) (l : Z) :
  nth_error bbox_score_anchors n = Some score_n ->
  length score_n = length labels_n ->
  In l labels_n -> (2 <= l)%Z -> l <> 101%Z ->
  RPN.image_class_loss bbox_score_anchors labels_n n = Raise IndexError.
Proof.
  intros Hn Hlen Hin Hl _. unfold RPN.image_class_loss.
  rewrite (get_nth_error _ _ _ Hn); simpl.
  rewrite !masked_same_length by (rewrite length_map; lia); simpl.
  unfold cross_entropy.
  rewrite length_map, (select_length _ score_n labels_n Hlen), Nat.eqb_refl.
  rewrite nll_rows_negative_target; [reflexivity | |].
  - rewrite length_map. now apply select_length.
  - now apply (select_flipped_negative l).
Qed.

Lemma image_class_loss_rejects_class_labels_witness :
  RPN.image_class_loss Aux.agree_scores [1; 0; 2]%Z 0 = Raise IndexError.
Proof.
  apply (image_class_loss_rejects_class_labels Aux.agree_scores [1; 0; 2]%Z 0
           [[1; 0]; [0; 2]; [3; 1]] 2%Z).
  - reflexivity.
  - reflexivity.
  - simpl. tauto.
  - lia.
  - lia.
Defined.

(** ** Signs and zeros of the losses *)

Lemma smooth_l1_nonneg (d : R) : 0 <= smooth_l1 d.
Proof.
  unfold smooth_l1. destruct (Rlt_dec (Rabs d) 1) as [Hlt | Hge].
  - assert (0 <= d * d) by nra. lra.
  - lra.
Qed.

Lemma smooth_l1_terms_nonneg (xs : list R) :
  forall ys, Forall (fun v => 0 <= v) (smooth_l1_terms xs ys).
Proof.
  induction xs as [| x xs IH]; intros [| y ys]; simpl; constructor.
  - apply smooth_l1_nonneg.
  - apply IH.
Qed.

Lemma Rsum_nonneg (xs : list R) : Forall (fun v => 0 <= v) xs -> 0 <= Rsum xs.
Proof.
  induction 1 as [| x xs Hx _ IH]; simpl; [lra |]. unfold Rsum in *. lra.
Qed.

Lemma Rsum_zero_all_zero (xs : list R) :
  Forall (fun v => 0 <= v) xs -> Rsum xs = 0 -> Forall (fun v => v = 0) xs.
Proof.
  induction 1 as [| x xs Hx Hxs IH]; simpl; intros Hsum; constructor.
  - pose proof (Rsum_nonneg xs Hxs). unfold Rsum in *. lra.
  - apply IH. pose proof (Rsum_nonneg xs Hxs). unfold Rsum in *. lra.
Qed.

Lemma div_INR_nonneg (a : R) (n : nat) : 0 <= a -> 0 <= a / INR n.
Proof.
  intros Ha. destruct n as [| n].
  - simpl. rewrite Rdiv_0_r. lra.
  - apply Rmult_le_pos; [assumption |].
    left. apply Rinv_0_lt_compat. apply lt_0_INR. lia.
Qed.

Lemma mean_nonneg (xs : list R) : Forall (fun v => 0 <= v) xs -> 0 <= SpecModel.mean xs.
Proof. intros H. apply div_INR_nonneg. now apply Rsum_nonneg. Qed.

Lemma Rsum_exp_nonneg (row : Tensor1) : 0 <= Rsum (map exp row).
Proof.
  apply Rsum_nonneg. induction row as [| x row IH]; simpl; constructor; [| exact IH].
  left. apply exp_pos.
Qed.

Lemma exp_le_Rsum_exp (row : Tensor1) :
  forall col, (col < length row)%nat -> exp (nth col row 0) <= Rsum (map exp row).
Proof.
  induction row as [| x row IH]; intros [| col] Hcol; simpl in *; try lia.
  - pose proof (Rsum_exp_nonneg row). unfold Rsum in *. lra.
  - specialize (IH col ltac:(lia)). pose proof (exp_pos x). unfold Rsum in *. lra.
Qed.

Lemma ce_at_nonneg (row : Tensor1) (col : nat) :
  (col < length row)%nat -> 0 <= SpecModel.ce_at row col.
Proof.
  intros Hcol. unfold SpecModel.ce_at.
  pose proof (exp_le_Rsum_exp row col Hcol) as Hle.
  pose proof (exp_pos (nth col row 0)) as Hpos.
  destruct Hle as [Hlt | Heq].
  - pose proof (ln_increasing _ _ Hpos Hlt) as Hln. rewrite ln_exp in Hln. lra.
  - rewrite <- Heq, ln_exp. lra.
Qed.

Lemma sampled_ce_terms_nonneg (rows : Tensor2) :
  forall ls : IntTensor1,
    Forall (fun row => length row = 2%nat) rows ->
    Forall (fun v => 0 <= v) (SpecModel.sampled_ce_terms rows ls).
Proof.
  unfold SpecModel.sampled_ce_terms.
  induction rows as [| row rows IH]; intros [| l ls] Hrows; simpl; try constructor.
  inversion Hrows as [| ? ? Hrow Hrows']; subst.
  destruct (0 <=? l)%Z; simpl; [constructor |]; try (apply IH; assumption).
  apply ce_at_nonneg. rewrite Hrow.
  unfold SpecModel.score_column, SpecModel.FG_COLUMN, SpecModel.BG_COLUMN.
  destruct (l =? 1)%Z; lia.
Qed.

Lemma fg_smooth_l1_terms_nonneg (c : Tensor2) :
  forall (t : Tensor2) (ls : IntTensor1),
    Forall (fun v => 0 <= v) (SpecModel.fg_smooth_l1_terms c t ls).
Proof.
  unfold SpecModel.fg_smooth_l1_terms.
  induction c as [| p c IH]; intros [| q t] [| l ls]; simpl; try constructor.
  destruct (l =? 1)%Z; simpl; [| apply IH].
  apply Forall_app. split; [apply smooth_l1_terms_nonneg | apply IH].
Qed.

Lemma image_means_nonneg (labels : IntTensor2) (scores coeffs targets : Tensor3) :
  Aux.images_ok labels scores coeffs targets ->
  Forall (fun v => 0 <= v) (SpecModel.image_mean_ce scores labels) /\
  Forall (fun v => 0 <= v) (SpecModel.image_mean_smooth_l1 coeffs targets labels).
Proof.
  unfold SpecModel.image_mean_ce, SpecModel.image_mean_smooth_l1.
  induction 1 as [| ls s c t labels ss cs ts Himg _ [IH1 IH2]]; simpl.
  - split; constructor.
  - destruct Himg as (_ & _ & _ & Fs & _).
    split; constructor; try assumption.
    + apply mean_nonneg. now apply sampled_ce_terms_nonneg.
    + apply mean_nonneg. apply fg_smooth_l1_terms_nonneg.
Qed.

(** X11: on a well-shaped training batch in which every image has a
    foreground anchor (so that no mean is taken over nothing), [forward]
    returns and the classification loss, the regression loss and their sum
    are all non-negative. *)
Theorem rpn_losses_nonnegative
    (L : RPN.Layers) (feature_map : Tensor4) (gt_boxes : Tensor3)
    (gt_classes : IntTensor2) (s : RPN.Self)
    (labels : IntTensor2) (target_coeffs : Tensor3) (anchors_idx : list nat) :
  RPN.training s = true ->
  snd (RPN.anchor_refine L
         (fst (RPN.proposal L (RPN.anchors s)
                 (RPN.conv_bbox_score L (RPN.conv L feature_map))
                 (RPN.conv_bbox_coeff L (RPN.conv L feature_map))))
         gt_boxes) = (labels, target_coeffs, anchors_idx) ->
  Aux.batch_ok (RPN.conv_bbox_score L (RPN.conv L feature_map))
    (RPN.conv_bbox_coeff L (RPN.conv L feature_map))
    labels target_coeffs anchors_idx gt_boxes ->
  Forall (fun labels_n => In 1%Z labels_n) labels ->
  exists ret,
    fst (RPN.forward L feature_map gt_boxes gt_classes s) = Ok ret /\
    0 <= RPN.rpn_class_loss ret /\
    0 <= RPN.rpn_bbox_loss ret /\
    0 <= RPN.rpn_loss ret.
Proof.
  intros Hmode Hrefine Hok _.
  rewrite (forward_training_unfold L feature_map gt_boxes gt_classes s Hmode).
  cbv zeta. rewrite Hrefine. cbn [fst snd].
  rewrite (training_losses_value _ _ _ _ _ _ Hok).
  eexists. split; [reflexivity |]. cbn [RPN.rpn_class_loss RPN.rpn_bbox_loss RPN.rpn_loss fst snd].
  destruct Hok as (_ & _ & Himgs & _ & _).
  destruct (image_means_nonneg _ _ _ _ Himgs) as [Hce Hsl].
  pose proof (div_INR_nonneg _ (length gt_boxes) (Rsum_nonneg _ Hce)).
  pose proof (div_INR_nonneg _ (length gt_boxes) (Rsum_nonneg _ Hsl)).
  repeat split; lra.
Qed.

Lemma rpn_losses_nonnegative_witness :
  exists ret,
    fst (RPN.forward Aux.sample_layers Aux.sample_feature_map Aux.sample_gt_boxes
           Aux.sample_gt_classes (Aux.sample_self true)) = Ok ret /\
    0 <= RPN.rpn_class_loss ret /\
    0 <= RPN.rpn_bbox_loss ret /\
    0 <= RPN.rpn_loss ret.
Proof.
  apply (rpn_losses_nonnegative Aux.sample_layers Aux.sample_feature_map
           Aux.sample_gt_boxes Aux.sample_gt_classes (Aux.sample_self true)
           [[1; 0; -1]; [0; 1; 1]]%Z
           [[[0; 0; 0; 0]; [0; 0; 0; 0]; [0; 0; 0; 0]];
            [[0; 0; 0; 0]; [1; 0; 0; 0]; [0; 0; 0; 2]]]
           [0; 1; 3]%nat).
  - reflexivity.
  - reflexivity.
  - exact sample_batch_ok.
  - repeat constructor; simpl; tauto.
Defined.

Lemma smooth_l1_terms_zero (xs : list R) :
  forall ys,
    length xs = length ys ->
    Forall (fun v => v = 0) (smooth_l1_terms xs ys) -> xs = ys.
Proof.
  induction xs as [| x xs IH]; intros [| y ys] Hlen Hzero;
    cbn [smooth_l1_terms length] in *; try discriminate; try reflexivity.
  inversion Hzero as [| ? ? Hx Hrest]; subst.
  apply (proj1 (smooth_l1_zero_iff (x - y))) in Hx.
  f_equal; [lra | apply IH; [lia | assumption]].
Qed.

Lemma smooth_l1_terms_same (xs : list R) :
  Forall (fun v => v = 0) (smooth_l1_terms xs xs).
Proof.
  induction xs as [| x xs IH]; simpl; constructor; [| exact IH].
  replace (x - x) with 0 by lra. apply smooth_l1_0.
Qed.

Lemma Rsum_all_zero (xs : list R) : Forall (fun v => v = 0) xs -> Rsum xs = 0.
Proof.
  induction 1 as [| x xs Hx _ IH]; simpl; [reflexivity |]. unfold Rsum in *. lra.
Qed.

Lemma app_inj_same_length {X : Type} (a : list X) :
  forall b c d, length a = length b -> a ++ c = b ++ d -> a = b /\ c = d.
Proof.
  induction a as [| x a IH]; intros [| y b] c d Hlen Happ; simpl in *;
    try discriminate; [now split |].
  injection Happ as -> Happ.
  destruct (IH b c d ltac:(lia) Happ) as [-> ->]. now split.
Qed.

Lemma flat2_inj (a : Tensor2) :
  forall b : Tensor2, shape2 a = shape2 b -> flat2 a = flat2 b -> a = b.
Proof.
  unfold shape2, flat2.
  induction a as [| r a IH]; intros [| q b] Hshape Hflat; simpl in *;
    try discriminate; [reflexivity |].
  injection Hshape as Hr Hrest.
  destruct (app_inj_same_length r q _ _ Hr Hflat) as [-> Htail].
  f_equal. now apply IH.
Qed.

Lemma flat3_inj (a : Tensor3) :
  forall b : Tensor3, shape3 a = shape3 b -> flat3 a = flat3 b -> a = b.
Proof.
  unfold shape3, flat3.
  induction a as [| r a IH]; intros [| q b] Hshape Hflat; simpl in *;
    try discriminate; [reflexivity |].
  injection Hshape as Hr Hrest.
  assert (Hlen : length (flat2 r) = length (flat2 q)).
  { unfold flat2. rewrite !length_concat. unfold shape2 in Hr. now rewrite Hr. }
  destruct (app_inj_same_length _ _ _ _ Hlen Hflat) as [Hhead Htail].
  f_equal; [now apply flat2_inj | now apply IH].
Qed.

(** X12: for a prediction and a target of one shape with at least one
    entry, the head's regression loss is zero exactly when the prediction
    equals the target in every entry, those of the zero-filled slices of the
    other classes included. *)
Theorem rcnn_bbox_loss_zero_iff (pred_rois_coeffs gt_rois_coeffs : Tensor3) :
  shape3 pred_rois_coeffs = shape3 gt_rois_coeffs ->
  flat3 pred_rois_coeffs <> [] ->
  (FasterRCNN.rcnn_bbox_loss pred_rois_coeffs gt_rois_coeffs = Ok 0 <->
   pred_rois_coeffs = gt_rois_coeffs).
Proof.
  intros Hshape Hne.
  unfold FasterRCNN.rcnn_bbox_loss, smooth_l1_loss3.
  destruct (list_eq_dec _ _ _) as [_ | Hbad]; [| contradiction].
  assert (Hpos : 0 < INR (length (flat3 pred_rois_coeffs))).
  { apply lt_0_INR. destruct (flat3 pred_rois_coeffs); [contradiction | simpl; lia]. }
  split.
  - intros H. injection H as H.
    apply flat3_inj; [assumption |].
    apply smooth_l1_terms_zero; [now apply shape3_flat_length |].
    apply Rsum_zero_all_zero; [apply smooth_l1_terms_nonneg |].
    apply Rmult_integral in H. destruct H as [H | H]; [assumption |].
    pose proof (Rinv_0_lt_compat _ Hpos). lra.
  - intros <-. f_equal.
    rewrite (Rsum_all_zero _ (smooth_l1_terms_same _)). lra.
Qed.

Lemma rcnn_bbox_loss_zero_iff_witness :
  FasterRCNN.rcnn_bbox_loss Aux.sliced_pred' Aux.sliced_gt = Ok 0 <->
  Aux.sliced_pred' = Aux.sliced_gt.
Proof.
  apply rcnn_bbox_loss_zero_iff.
  - reflexivity.
  - discriminate.
Defined.

(** ** [Flatten]: when it succeeds, and what it does to the entries *)

(** X13: [Flatten(d).forward] returns exactly on the inputs of rank 4 with
    a non-empty batch, d >= 1 and d dividing the C*H*W entries of an image;
    on every other input ([x] of another rank, an empty batch, d = 0, or d
    not dividing C*H*W) it raises: [permute] needs four dimensions and
    [view(N, -1, d)] must be able to infer the middle one. *)
Theorem Flatten_forward_ok_iff (d : nat) (x : Flatten.Tensor) :
  (exists y, Flatten.forward d x = Ok y) <->
  (exists N C H W,
     Flatten.shape x = [N; C; H; W]%nat /\
     (0 < N)%nat /\ (0 < d)%nat /\ ((C * H * W) mod d = 0)%nat).
Proof.
  unfold Flatten.forward, Flatten.permute_0231_contiguous, Flatten.size0.
  destruct (Flatten.shape x) as [| N [| C [| H [| W [| extra rest]]]]] eqn:Hshape;
    cbn [rbind nth];
    try (split; [intros [y Hy]; discriminate
                | intros (N' & C' & H' & W' & Hs & _); discriminate]).
  unfold Flatten.view_infer_middle, Flatten.numel. cbn [Flatten.shape fold_right].
  replace (N * (H * (W * (C * 1))))%nat with (N * (C * H * W))%nat by nia.
  rewrite Nat.Div0.mul_mod_distr_l.
  split.
  - intros [y Hy].
    destruct (Nat.eqb_spec (N * d) 0) as [E | NE]; [discriminate |].
    destruct (Nat.eqb_spec (N * ((C * H * W) mod d)) 0) as [E' | NE']; [| discriminate].
    exists N, C, H, W. repeat split; nia.
  - intros (N' & C' & H' & W' & Hs & HN & Hd & Hmod).
    injection Hs as <- <- <- <-.
    destruct (Nat.eqb_spec (N * d) 0) as [E | NE]; [nia |].
    rewrite Hmod, Nat.mul_0_r. cbn. eauto.
Qed.

Lemma map_tab {X Y : Type} (f : X -> Y) (g : nat -> list X) (n : nat) :
  map f (Flatten.tab n g) = Flatten.tab n (fun i => map f (g i)).
Proof.
  induction n as [| n IH]; [reflexivity |].
  now rewrite !tab_succ, map_app, IH.
Qed.

Lemma tab_ext {X : Type} (n : nat) (f g : nat -> list X) :
  (forall i, f i = g i) -> Flatten.tab n f = Flatten.tab n g.
Proof.
  intros Hfg. unfold Flatten.tab. apply flat_map_ext. intros i. apply Hfg.
Qed.

Lemma map_nth_seq (xs : list R) :
  map (fun i => nth i xs 0) (seq 0 (length xs)) = xs.
Proof.
  induction xs as [| x xs IH]; simpl; [reflexivity |].
  f_equal. rewrite <- seq_shift, map_map. exact IH.
Qed.

(** The storage offsets [permute(0,2,3,1).contiguous()] reads, in the order
    it writes them. *)
Lemma gather_offsets (N C H W : nat) :
  let offs := Flatten.tab N (fun n => Flatten.tab H (fun h => Flatten.tab W (fun w =>
                map (fun c => (((n * C + c) * H + h) * W + w)%nat) (seq 0 C)))) in
  length offs = (N * (H * (W * C)))%nat /\
  forall n h w c, (n < N)%nat -> (h < H)%nat -> (w < W)%nat -> (c < C)%nat ->
    nth_error offs (n * (H * (W * C)) + (h * (W * C) + (w * C + c))) =
    Some (((n * C + c) * H + h) * W + w)%nat.
Proof.
  intros offs.
  assert (L1 : forall n h w,
             length (map (fun c => (((n * C + c) * H + h) * W + w)%nat) (seq 0 C)) = C)
    by (intros; now rewrite length_map, length_seq).
  assert (L2 : forall n h,
             length (Flatten.tab W (fun w =>
               map (fun c => (((n * C + c) * H + h) * W + w)%nat) (seq 0 C))) = (W * C)%nat)
    by (intros; apply tab_length; intros; apply L1).
  assert (L3 : forall n,
             length (Flatten.tab H (fun h => Flatten.tab W (fun w =>
               map (fun c => (((n * C + c) * H + h) * W + w)%nat) (seq 0 C))))
             = (H * (W * C))%nat)
    by (intros; apply tab_length; intros; apply L2).
  split.
  - apply tab_length; intros; apply L3.
  - intros n h w c Hn Hh Hw Hc. unfold offs.
    assert (B1 : (w * C + c < W * C)%nat) by (apply index_lt; assumption).
    assert (B2 : (h * (W * C) + (w * C + c) < H * (W * C))%nat)
      by (apply index_lt; assumption).
    rewrite (tab_nth_error N (H * (W * C))); [| intros; apply L3 | assumption | assumption].
    rewrite (tab_nth_error H (W * C)); [| intros; apply L2 | assumption | assumption].
    rewrite (tab_nth_error W C); [| intros; apply L1 | assumption | assumption].
    exact (nth_error_map_seq
             (fun c' => (((n * C + c') * H + h) * W + w)%nat) C c Hc).
Qed.

Lemma split_index (i A B : nat) :
  (i < A * B)%nat -> exists a b, (a < A)%nat /\ (b < B)%nat /\ i = (a * B + b)%nat.
Proof.
  intros Hi.
  assert (HB : B <> 0%nat) by nia.
  exists (i / B)%nat, (i mod B)%nat. split; [| split].
  - apply Nat.Div0.div_lt_upper_bound. nia.
  - now apply Nat.mod_upper_bound.
  - pose proof (Nat.div_mod_eq i B). nia.
Qed.

Lemma join_index_inj (a a' b b' B : nat) :
  (b < B)%nat -> (b' < B)%nat -> (a * B + b = a' * B + b')%nat -> a = a' /\ b = b'.
Proof.
  intros Hb Hb' H.
  destruct (Nat.lt_trichotomy a a') as [Hlt | [-> | Hgt]].
  - assert (Hle : ((a + 1) * B <= a' * B)%nat) by (apply Nat.mul_le_mono_r; lia).
    rewrite Nat.mul_add_distr_r in Hle. lia.
  - split; lia.
  - assert (Hle : ((a' + 1) * B <= a * B)%nat) by (apply Nat.mul_le_mono_r; lia).
    rewrite Nat.mul_add_distr_r in Hle. lia.
Qed.

Lemma gather_offsets_permutation (N C H W : nat) :
  Permutation
    (Flatten.tab N (fun n => Flatten.tab H (fun h => Flatten.tab W (fun w =>
       map (fun c => (((n * C + c) * H + h) * W + w)%nat) (seq 0 C)))))
    (seq 0 (N * C * H * W)).
Proof.
  destruct (gather_offsets N C H W) as [Hlen Hnth].
  set (offs := Flatten.tab N _) in *.
  assert (Hpos : forall i, (i < length offs)%nat ->
            exists n h w c, (n < N)%nat /\ (h < H)%nat /\ (w < W)%nat /\ (c < C)%nat /\
              nth_error offs i = Some (((n * C + c) * H + h) * W + w)%nat).
  { intros i Hi. rewrite Hlen in Hi.
    destruct (split_index i N _ Hi) as (n & r1 & Hn & Hr1 & ->).
    destruct (split_index r1 H _ Hr1) as (h & r2 & Hh & Hr2 & ->).
    destruct (split_index r2 W _ Hr2) as (w & c & Hw & Hc & ->).
    exists n, h, w, c. repeat split; try assumption. now apply Hnth. }
  apply NoDup_Permutation_bis.
  - apply NoDup_nth_error. intros i j Hi Heq.
    assert (Hj : (j < length offs)%nat).
    { apply nth_error_Some. rewrite <- Heq. apply nth_error_Some. assumption. }
    pose proof Hi as Hi'. pose proof Hj as Hj'. rewrite Hlen in Hi', Hj'.
    destruct (split_index i N _ Hi') as (n & r1 & Hn & Hr1 & ->).
    destruct (split_index r1 H _ Hr1) as (h & r2 & Hh & Hr2 & ->).
    destruct (split_index r2 W _ Hr2) as (w & c & Hw & Hc & ->).
    destruct (split_index j N _ Hj') as (n' & s1 & Hn' & Hs1 & ->).
    destruct (split_index s1 H _ Hs1) as (h' & s2 & Hh' & Hs2 & ->).
    destruct (split_index s2 W _ Hs2) as (w' & c' & Hw' & Hc' & ->).
    rewrite (Hnth n h w c), (Hnth n' h' w' c') in Heq by assumption.
    injection Heq as Heq.
    apply join_index_inj in Heq as [Heq <-]; try assumption.
    apply join_index_inj in Heq as [Heq <-]; try assumption.
    apply join_index_inj in Heq as [<- <-]; try assumption.
    reflexivity.
  - rewrite length_seq, Hlen. nia.
  - intros v Hv. apply In_nth_error in Hv as [i Hi].
    assert (Hlt : (i < length offs)%nat) by (apply nth_error_Some; congruence).
    destruct (Hpos i Hlt) as (n & h & w & c & Hn & Hh & Hw & Hc & Hsome).
    rewrite Hsome in Hi. injection Hi as <-.
    apply in_seq. split; [lia |]. simpl.
    repeat apply index_lt; assumption.
Qed.

(** X14: [Flatten] only rearranges: on a well-formed N x C x H x W input,
    the storage of the result holds exactly the entries of the input, each as
    often as the input does. *)
Theorem Flatten_forward_permutes (d N C H W : nat) (x y : Flatten.Tensor) :
  Flatten.shape x = [N; C; H; W]%nat ->
  length (Flatten.data x) = (N * C * H * W)%nat ->
  Flatten.forward d x = Ok y ->
  Permutation (Flatten.data x) (Flatten.data y).
Proof.
  intros Hshape Hlen Hfwd.
  unfold Flatten.forward, Flatten.permute_0231_contiguous in Hfwd.
  rewrite Hshape in Hfwd. cbn [rbind] in Hfwd.
  unfold Flatten.view_infer_middle in Hfwd.
  destruct (_ || _) in Hfwd; [discriminate |].
  injection Hfwd as <-. cbn [Flatten.data].
  rewrite <- (map_nth_seq (Flatten.data x)) at 1.
  rewrite Hlen. symmetry.
  replace (Flatten.tab N _) with
    (map (fun i => nth i (Flatten.data x) 0)
       (Flatten.tab N (fun n => Flatten.tab H (fun h => Flatten.tab W (fun w =>
          map (fun c => (((n * C + c) * H + h) * W + w)%nat) (seq 0 C)))))).
  - apply Permutation_map. apply gather_offsets_permutation.
  - rewrite map_tab. apply tab_ext. intros n.
    rewrite map_tab. apply tab_ext. intros h.
    rewrite map_tab. apply tab_ext. intros w.
    now rewrite map_map.
Qed.

Lemma Flatten_forward_permutes_witness :
  Permutation [10; 11; 20; 21; 30; 31; 40; 41] [10; 20; 30; 40; 11; 21; 31; 41].
Proof.
  apply (Flatten_forward_permutes 2 1 4 1 2 Aux.sample_scores
           {| Flatten.shape := [1; 4; 2]%nat;
              Flatten.data := [10; 20; 30; 40; 11; 21; 31; 41] |});
    reflexivity.
Defined.

(** ** The training script *)

(** X15: with at least one epoch to run, [main] ends with an exception
    raised by the very first forward pass (line 55), after [model.train()]
    has put the model in training mode: the exception of the RPN pass if it
    raises one, and otherwise the ValueError of the unpacking in
    [FasterRCNN.forward].  No [optimizer.step()] is ever taken, the weights
    stay as they were and no loss is printed. *)
Theorem main_stops_at_first_step (env : Train.Env) (st : Train.State) :
  (0 < Train.num_epochs env)%nat ->
  fst (Train.main env st) =
    rbind (fst (RPN.forward (FasterRCNN.rpn_layers (Train.layers st))
                  (FasterRCNN.cnn (Train.layers st) (Train.randn_images env 0))
                  (Train.synthetic_gt_boxes (Train.batch_size env))
                  (Train.randint_classes env 0)
                  (FasterRCNN.rpn (Train.train (Train.model st)))))
          (fun _ => Raise (ValueError_too_many_values 4)) /\
  Train.optimizer_steps (snd (Train.main env st)) = Train.optimizer_steps st /\
  Train.printed (snd (Train.main env st)) = Train.printed st /\
  Train.layers (snd (Train.main env st)) = Train.layers st /\
  FasterRCNN.training (Train.model (snd (Train.main env st))) = true.
Proof.
  intros Hn. unfold Train.main.
  destruct (Train.num_epochs env) as [| n]; [lia |].
  cbn [Train.epochs Train.steps Train.layers Train.model Train.optimizer_steps
       Train.printed].
  unfold FasterRCNN.forward.
  destruct (RPN.forward _ _ _ _ _) as [[ret | e] rpn']; cbn [fst rbind].
  - unfold FasterRCNN.after_rpn. rewrite unpack4_rpn_return. cbn. repeat split.
  - cbn. repeat split.
Qed.

Lemma main_stops_at_first_step_witness :
  fst (Train.main Train.sample_env Train.sample_state) =
    rbind (fst (RPN.forward Aux.sample_layers Aux.sample_feature_map
                  (Train.synthetic_gt_boxes 2) Aux.sample_gt_classes (Aux.sample_self true)))
          (fun _ => Raise (ValueError_too_many_values 4)) /\
  Train.optimizer_steps (snd (Train.main Train.sample_env Train.sample_state)) = 0%nat /\
  Train.printed (snd (Train.main Train.sample_env Train.sample_state)) = [] /\
  Train.layers (snd (Train.main Train.sample_env Train.sample_state)) =
    Train.layers Train.sample_state /\
  FasterRCNN.training (Train.model (snd (Train.main Train.sample_env Train.sample_state))) =
    true.
Proof.
  apply (main_stops_at_first_step Train.sample_env Train.sample_state).
  simpl. lia.
Defined.
